(** * MMX Agent web client: saturation curve, upload, pipeline monitor

    A shallow embedding of the dashboard script (the vanilla JavaScript
    client with [hillFunction], [handleDrop], [pollPipelineStatus],
    [updatePipelineUI], [handleCheckpointDecision]) and of the React
    view [DataStudio.jsx], together with the properties the design
    document states about them.

    Conventions of the embedding:
    - a JavaScript Number is an exact real number or one of the special
      values [PInf], [NInf], [NaN]; rounding, overflow and the sign of
      zero are not modelled (every zero is [+0]);
    - an [async] function is split at its [await]: the value the
      awaited promise settles with is an argument of the model;
    - the document is a record of the elements the script touches. *)

From Stdlib Require Import Reals Lra Lia ZArith.
From stdpp Require Import base decidable option list gmap strings pretty.

#[local] Open Scope string_scope.

(** ** JavaScript numbers and completions *)

Module JS.

#[local] Open Scope R_scope.

#[export] Instance R_eq_dec : EqDecision R := Req_dec_T.
#[export] Instance Rlt_decision (x y : R) : Decision (x < y) := Rlt_dec x y.
#[export] Instance Rle_decision (x y : R) : Decision (x <= y) := Rle_dec x y.

Inductive number : Type :=
| Finite (r : R)
| PInf
| NInf
| NaN.

(** The result of calling a function: it returns a value or throws an
    error of the given name. *)
Inductive completion (A : Type) : Type :=
| Return (v : A)
| Throw (name : string).

Arguments Return {A} v.
Arguments Throw {A} name.

(** [sign_inf r] is the infinity with the sign of [r]; zero counts as
    positive. *)
Definition sign_inf (r : R) : number :=
  if decide (0 <= r) then PInf else NInf.

Definition neg (n : number) : number :=
  match n with
  | Finite r => Finite (- r)
  | PInf => NInf
  | NInf => PInf
  | NaN => NaN
  end.

(** [a * b] *)
Definition mul (a b : number) : number :=
  match a, b with
  | NaN, _ | _, NaN => NaN
  | Finite x, Finite y => Finite (x * y)
  | Finite x, PInf | PInf, Finite x =>
      if decide (x = 0) then NaN else sign_inf x
  | Finite x, NInf | NInf, Finite x =>
      if decide (x = 0) then NaN else neg (sign_inf x)
  | PInf, PInf | NInf, NInf => PInf
  | PInf, NInf | NInf, PInf => NInf
  end.

(** [a + b] *)
Definition add (a b : number) : number :=
  match a, b with
  | NaN, _ | _, NaN => NaN
  | Finite x, Finite y => Finite (x + y)
  | PInf, NInf | NInf, PInf => NaN
  | PInf, _ | _, PInf => PInf
  | NInf, _ | _, NInf => NInf
  end.

(** [a / b] *)
Definition div (a b : number) : number :=
  match a, b with
  | NaN, _ | _, NaN => NaN
  | Finite x, Finite y =>
      if decide (y = 0)
      then (if decide (x = 0) then NaN else sign_inf x)
      else Finite (x / y)
  | Finite _, (PInf | NInf) => Finite 0
  | (PInf | NInf), (PInf | NInf) => NaN
  | PInf, Finite y => sign_inf y
  | NInf, Finite y => neg (sign_inf y)
  end.

(** [Math.pow(b, e)] on finite arguments: [1] for a zero exponent,
    [exp (e * ln b)] for a positive base, [0] or [+Infinity] for a zero
    base, and for a negative base the integer power or [NaN]. *)
Definition Math_pow (b e : R) : number :=
  if decide (e = 0) then Finite 1
  else if decide (0 < b) then Finite (Rpower b e)
  else if decide (b = 0) then (if decide (0 < e) then Finite 0 else PInf)
  else if decide (IZR (Int_part e) = e) then Finite (powerRZ b (Int_part e))
  else NaN.

End JS.

Import JS.

(** ** The saturation curve of the response chart *)

(** [function hillFunction(spend, halfSaturation, slope)]: a single
    [return] of an arithmetic expression; nothing in it throws. *)
Definition hillFunction (spend halfSaturation slope : R) : completion number :=
  Return (div (mul (Finite 100) (Math_pow spend slope))
              (add (Math_pow halfSaturation slope) (Math_pow spend slope))).

(** ** Strings *)

(** [s.endsWith(t)]: the last [length t] characters of [s] are [t]. *)
Definition endsWith (s t : string) : bool :=
  if decide (String.length t <= String.length s)%nat
  then String.eqb (String.substring (String.length s - String.length t)
                             (String.length t) s) t
  else false.

Definition upper_char (c : Ascii.ascii) : Ascii.ascii :=
  let n := Ascii.nat_of_ascii c in
  if decide (97 <= n <= 122)%nat then Ascii.ascii_of_nat (n - 32) else c.

(** [s.toUpperCase()], on the ASCII letters. *)
Fixpoint toUpperCase (s : string) : string :=
  match s with
  | EmptyString => EmptyString
  | String c rest => String (upper_char c) (toUpperCase rest)
  end.

(** [s.charAt(0).toUpperCase() + s.slice(1)] *)
Definition capitalize (s : string) : string :=
  match s with
  | EmptyString => EmptyString
  | String c rest => String (upper_char c) rest
  end.

(** [a.indexOf(x)], with [-1] when [x] is absent. *)
Fixpoint indexOf (a : list string) (x : string) : Z :=
  match a with
  | [] => -1
  | y :: rest =>
      if decide (y = x) then 0
      else let i := indexOf rest x in
           if decide (i = -1)%Z then (-1)%Z else (i + 1)%Z
  end.

(** [a.includes(x)] *)
Definition includes (a : list string) (x : string) : bool :=
  bool_decide (x ∈ a).

(** ** The page and the script's state *)

(** A JSON document the script passes on without looking inside. *)
Definition json : Type := string.

(** One element of [results.channels]; a field that is absent, or is
    not a number, is [None]. *)
Record channel_result : Type :=
  { ch_name : string;
    ch_contribution : option R;
    ch_current : option R;
    ch_optimized : option R;
    ch_roi : option R }.

(** The results of a run: the [channels] array when there is one, and
    the rest of the document, which the script hands on. *)
Record results_doc : Type :=
  { results_channels : option (list channel_result);
    results_rest : json }.

Record File : Type := { file_name : string; file_data : string }.

(** What the awaited [fetch(...)] then [response.json()] settles with:
    the parsed body, or the error the [catch] clause receives. *)
Inductive reply (A : Type) : Type :=
| Resolved (data : A)
| Rejected (message : string).

Arguments Resolved {A} data.
Arguments Rejected {A} message.

Inductive body : Type :=
| NoBody
| FormData (file : File)
| RunBody (file_id : option string) (autoApprove : bool)
| DecisionBody (approved : bool).

Record request : Type :=
  { req_method : string; req_url : string; req_body : body }.

(** The [state] object of the script. *)
Record app_state : Type :=
  { fileId : option string;
    pipelineId : option string;
    pipelineRunning : bool;
    currentStage : option string;
    results : option results_doc;
    autoApprove : bool }.

(** A [.stage-card] element: the class lists of its icon, of its badge
    and of the card itself, the badge text, and the width of its
    progress bar. A card of the page has all three children, so that
    no lookup inside it fails. *)
Record card : Type :=
  { icon : gset string;
    badge : gset string;
    badgeText : string;
    cardClasses : gset string;
    progressWidth : string }.

Record document : Type :=
  { uploadArea : gset string;
    modals : gmap string (gset string);
    runBtn_disabled : bool;
    runBtn_html : string;
    cards : gmap string card;
    checkpointTitle : string;
    checkpointDescription : string;
    checkpointData_html : string;
    checkpointData_display : string;
    resultsSection_display : string;
    insightsSection_display : string }.

(** Everything a handler can read or change: the script state, the
    page, the notifications shown and the requests sent so far (oldest
    first), and whether the interval of [pollPipelineStatus] is set.
    The model follows the timer of one call of [pollPipelineStatus];
    a second call made while that timer is set is not told apart
    from it. *)
Record world : Type :=
  { state : app_state;
    doc : document;
    notifications : list (string * string);
    requests : list request;
    pollInterval : bool }.

Definition with_state (f : app_state -> app_state) (w : world) : world :=
  {| state := f (state w); doc := doc w; notifications := notifications w;
     requests := requests w; pollInterval := pollInterval w |}.

Definition with_doc (f : document -> document) (w : world) : world :=
  {| state := state w; doc := f (doc w); notifications := notifications w;
     requests := requests w; pollInterval := pollInterval w |}.

Definition set_fileId (v : option string) (s : app_state) : app_state :=
  {| fileId := v; pipelineId := pipelineId s;
     pipelineRunning := pipelineRunning s; currentStage := currentStage s;
     results := results s; autoApprove := autoApprove s |}.

Definition set_pipelineId (v : option string) (s : app_state) : app_state :=
  {| fileId := fileId s; pipelineId := v;
     pipelineRunning := pipelineRunning s; currentStage := currentStage s;
     results := results s; autoApprove := autoApprove s |}.

Definition set_pipelineRunning (v : bool) (s : app_state) : app_state :=
  {| fileId := fileId s; pipelineId := pipelineId s;
     pipelineRunning := v; currentStage := currentStage s;
     results := results s; autoApprove := autoApprove s |}.

Definition set_results (v : option results_doc) (s : app_state) : app_state :=
  {| fileId := fileId s; pipelineId := pipelineId s;
     pipelineRunning := pipelineRunning s; currentStage := currentStage s;
     results := v; autoApprove := autoApprove s |}.

Definition set_uploadArea (v : gset string) (d : document) : document :=
  {| uploadArea := v; modals := modals d;
     runBtn_disabled := runBtn_disabled d; runBtn_html := runBtn_html d;
     cards := cards d; checkpointTitle := checkpointTitle d;
     checkpointDescription := checkpointDescription d;
     checkpointData_html := checkpointData_html d;
     checkpointData_display := checkpointData_display d;
     resultsSection_display := resultsSection_display d;
     insightsSection_display := insightsSection_display d |}.

Definition set_modals (v : gmap string (gset string)) (d : document) : document :=
  {| uploadArea := uploadArea d; modals := v;
     runBtn_disabled := runBtn_disabled d; runBtn_html := runBtn_html d;
     cards := cards d; checkpointTitle := checkpointTitle d;
     checkpointDescription := checkpointDescription d;
     checkpointData_html := checkpointData_html d;
     checkpointData_display := checkpointData_display d;
     resultsSection_display := resultsSection_display d;
     insightsSection_display := insightsSection_display d |}.

Definition set_runBtn (disabled : bool) (html : string) (d : document) : document :=
  {| uploadArea := uploadArea d; modals := modals d;
     runBtn_disabled := disabled; runBtn_html := html;
     cards := cards d; checkpointTitle := checkpointTitle d;
     checkpointDescription := checkpointDescription d;
     checkpointData_html := checkpointData_html d;
     checkpointData_display := checkpointData_display d;
     resultsSection_display := resultsSection_display d;
     insightsSection_display := insightsSection_display d |}.

Definition set_cards (v : gmap string card) (d : document) : document :=
  {| uploadArea := uploadArea d; modals := modals d;
     runBtn_disabled := runBtn_disabled d; runBtn_html := runBtn_html d;
     cards := v; checkpointTitle := checkpointTitle d;
     checkpointDescription := checkpointDescription d;
     checkpointData_html := checkpointData_html d;
     checkpointData_display := checkpointData_display d;
     resultsSection_display := resultsSection_display d;
     insightsSection_display := insightsSection_display d |}.

Definition set_checkpoint_view (title description html display : string)
    (d : document) : document :=
  {| uploadArea := uploadArea d; modals := modals d;
     runBtn_disabled := runBtn_disabled d; runBtn_html := runBtn_html d;
     cards := cards d; checkpointTitle := title;
     checkpointDescription := description;
     checkpointData_html := html;
     checkpointData_display := display;
     resultsSection_display := resultsSection_display d;
     insightsSection_display := insightsSection_display d |}.

Definition set_sections (res ins : string) (d : document) : document :=
  {| uploadArea := uploadArea d; modals := modals d;
     runBtn_disabled := runBtn_disabled d; runBtn_html := runBtn_html d;
     cards := cards d; checkpointTitle := checkpointTitle d;
     checkpointDescription := checkpointDescription d;
     checkpointData_html := checkpointData_html d;
     checkpointData_display := checkpointData_display d;
     resultsSection_display := res;
     insightsSection_display := ins |}.

Definition API_BASE_URL : string := "http://localhost:8080/api".

(** [showNotification(message, type)]; the removal of the notice after
    three seconds is not modelled. *)
Definition showNotification (message type : string) (w : world) : world :=
  {| state := state w; doc := doc w;
     notifications := notifications w ++ [(message, type)];
     requests := requests w; pollInterval := pollInterval w |}.

(** [fetch(url, {method, body})]: the request leaves the browser. *)
Definition fetch (r : request) (w : world) : world :=
  {| state := state w; doc := doc w; notifications := notifications w;
     requests := requests w ++ [r]; pollInterval := pollInterval w |}.

Definition clearInterval (w : world) : world :=
  {| state := state w; doc := doc w; notifications := notifications w;
     requests := requests w; pollInterval := false |}.

Definition setInterval (w : world) : world :=
  {| state := state w; doc := doc w; notifications := notifications w;
     requests := requests w; pollInterval := true |}.

(** [openModal] and [closeModal]: the page declares both modals; a
    missing element is left missing. *)
Definition openModal (modalId : string) : world -> world :=
  with_doc (fun d => set_modals (alter (union {["active"]}) modalId (modals d)) d).

Definition closeModal (modalId : string) : world -> world :=
  with_doc (fun d =>
    set_modals (alter (fun cl => cl ∖ {["active"]}) modalId (modals d)) d).

(** A value used as a condition: [null], [undefined] and the empty
    string are falsy. *)
Definition truthy (v : option string) : bool :=
  match v with
  | Some s => negb (String.eqb s "")
  | None => false
  end.

(** A value spliced into a template literal. *)
Definition show (v : option string) : string := default "null" v.

(** ** File upload *)

Record upload_response : Type :=
  { up_success : bool;
    up_file_id : option string;
    up_filename : string;
    up_error : string }.

(** [async function uploadFile(file)]; [r] is what the request to
    [/upload] settles with. *)
Definition uploadFile (file : File) (r : reply upload_response) (w : world) : world :=
  let w := showNotification ("Uploading " +:+ file_name file +:+ "...") "info" w in
  let w := fetch {| req_method := "POST";
                    req_url := API_BASE_URL +:+ "/upload";
                    req_body := FormData file |} w in
  match r with
  | Resolved data =>
      if up_success data then
        let w := with_state (set_fileId (up_file_id data)) w in
        let w := with_doc (fun d => set_runBtn false (runBtn_html d) d) w in
        let w := closeModal "uploadModal" w in
        showNotification (up_filename data +:+ " uploaded successfully!") "success" w
      else
        showNotification ("Upload failed: " +:+ up_error data) "error" w
  | Rejected message =>
      showNotification ("Upload error: " +:+ message) "error" w
  end.

(** [function handleFileUpload(event)], with [event.target.files[0]]. *)
Definition handleFileUpload (file : option File) (r : reply upload_response)
    (w : world) : world :=
  match file with
  | Some f => uploadFile f r w
  | None => w
  end.

Definition handleDragOver : world -> world :=
  with_doc (fun d => set_uploadArea (uploadArea d ∪ {["drag-over"]}) d).

Definition handleDragLeave : world -> world :=
  with_doc (fun d => set_uploadArea (uploadArea d ∖ {["drag-over"]}) d).

(** [function handleDrop(event)], with [event.dataTransfer.files[0]]. *)
Definition handleDrop (file : option File) (r : reply upload_response)
    (w : world) : world :=
  let w := with_doc (fun d => set_uploadArea (uploadArea d ∖ {["drag-over"]}) d) w in
  match file with
  | Some f =>
      if endsWith (file_name f) ".csv" then uploadFile f r w
      else showNotification "Please upload a CSV file" "error" w
  | None => showNotification "Please upload a CSV file" "error" w
  end.

(** ** Stage cards *)

Definition stages : list string :=
  ["segmentation"; "trend"; "baseline"; "model"; "budget"; "insight"].

Definition status_classes : gset string :=
  {["pending"; "running"; "completed"]}.

(** The body of [updateStageUI] once the card is found. *)
Definition mark (status : string) (c : card) : card :=
  {| icon := (icon c ∖ status_classes) ∪ {[status]};
     badge := (badge c ∖ status_classes) ∪ {[status]};
     badgeText := capitalize status;
     cardClasses :=
       (let cl := cardClasses c ∖ {["active"; "completed"]} in
        if String.eqb status "running" then cl ∪ {["active"]}
        else if String.eqb status "completed" then cl ∪ {["completed"]}
        else cl);
     progressWidth := progressWidth c |}.

Definition set_width (width : string) (c : card) : card :=
  {| icon := icon c; badge := badge c; badgeText := badgeText c;
     cardClasses := cardClasses c; progressWidth := width |}.

(** [function updateStageUI(stageName, status)]: nothing happens when
    no card carries [data-stage=stageName]. *)
Definition updateStageUI (stageName status : string) : world -> world :=
  with_doc (fun d => set_cards (alter (mark status) stageName (cards d)) d).

(** [function setStageProgress(stageName, percent)] *)
Definition setStageProgress (stageName : string) (percent : Z) : world -> world :=
  with_doc (fun d =>
    set_cards (alter (set_width (pretty percent +:+ "%")) stageName (cards d)) d).

(** [function resetStageUI()] *)
Definition resetStageUI : world -> world :=
  with_doc (fun d =>
    set_cards ((fun c => set_width "0%" (mark "pending" c)) <$> cards d) d).

Record checkpoint_info : Type :=
  { cp_pending : bool;
    cp_stage : string;
    cp_message : option string;
    cp_data : option json }.

(** The body of a status reply; [progress] is a whole number of
    percent. *)
Record status_data : Type :=
  { status : string;
    current_stage : option string;
    progress : Z;
    checkpoint : option checkpoint_info;
    error : string }.

(** The renaming of the backend's stage names at the head of
    [updatePipelineUI]. *)
Definition stage_id (currentStage : option string) : option string :=
  let stageId := currentStage in
  let stageId := if decide (stageId = Some "trend_scanner") then Some "trend" else stageId in
  let stageId := if decide (stageId = Some "model_optimization") then Some "model" else stageId in
  let stageId := if decide (stageId = Some "budget_optimization") then Some "budget" else stageId in
  let stageId := if decide (stageId = Some "insight_generation") then Some "insight" else stageId in
  stageId.

(** The body of the loop of [updatePipelineUI], at index [i]. *)
Definition complete_previous (w : world) (i : nat) : world :=
  let name := default "undefined" (stages !! i) in
  setStageProgress name 100 (updateStageUI name "completed" w).

(** [function updatePipelineUI(statusData)] *)
Definition updatePipelineUI (statusData : status_data) (w : world) : world :=
  match stage_id (current_stage statusData) with
  | Some stageId =>
      if truthy (Some stageId) && includes stages stageId then
        let w := updateStageUI stageId "running" w in
        let currentIndex := indexOf stages stageId in
        let w := foldl complete_previous w (seq 0 (Z.to_nat currentIndex)) in
        setStageProgress stageId (Z.rem (progress statusData) 20 * 5) w
      else w
  | None => w
  end.

(** ** Checkpoints *)

(** [function showCheckpointModal(checkpoint)] *)
Definition showCheckpointModal (checkpoint : checkpoint_info) (w : world) : world :=
  let title := "Checkpoint: " +:+ toUpperCase (cp_stage checkpoint) in
  let description :=
    if truthy (cp_message checkpoint) then show (cp_message checkpoint)
    else "Review required" in
  let w :=
    match cp_data checkpoint with
    | Some data =>
        with_doc (set_checkpoint_view title description
                    ("<pre>" +:+ data +:+ "</pre>") "block") w
    | None =>
        with_doc (fun d => set_checkpoint_view title description
                             (checkpointData_html d) "none" d) w
    end in
  openModal "checkpointModal" w.

Record decision_response : Type :=
  { dec_success : bool; dec_error : string }.

(** [async function handleCheckpointDecision(approved)]; [r] is what
    the request to [/checkpoint] settles with. *)
Definition handleCheckpointDecision (approved : bool)
    (r : reply decision_response) (w : world) : world :=
  let w := closeModal "checkpointModal" w in
  let w := fetch {| req_method := "POST";
                    req_url := API_BASE_URL +:+ "/pipeline/"
                                 +:+ show (pipelineId (state w)) +:+ "/checkpoint";
                    req_body := DecisionBody approved |} w in
  match r with
  | Resolved data =>
      if dec_success data then
        showNotification
          (if approved then "Checkpoint approved" else "Checkpoint rejected")
          (if approved then "success" else "warning") w
      else showNotification ("Error: " +:+ dec_error data) "error" w
  | Rejected message =>
      showNotification ("Network error: " +:+ message) "error" w
  end.

(** ** Completion and results *)

Record results_response : Type := { res_results : option results_doc }.

(** Whether [initializeCharts] and [populateRecommendationsTable] run
    to completion on the results: the bar chart calls
    [contribution.toFixed(1)] and the table [roi.toFixed(1)] and
    [contribution.toFixed(1)] for every channel, which throws a
    [TypeError] where the field is not a number. The page has the
    three canvases and the table body. *)
Definition draws (res : results_doc) : bool :=
  match results_channels res with
  | Some chs =>
      forallb (fun c => bool_decide (is_Some (ch_contribution c))
                        && bool_decide (is_Some (ch_roi c))) chs
  | None => true
  end.

(** [function showResults(results)]: the world it leaves, and whether
    it returned ([true]) or threw from the drawing of the charts and of
    the table ([false]), which comes after the results are stored and
    the two sections are shown. *)
Definition showResults (res : results_doc) (w : world) : world * bool :=
  let w := with_state (set_results (Some res)) w in
  let w := with_doc (set_sections "block" "block") w in
  (w, draws res).

(** [async function completePipeline()] up to its [await]. *)
Definition completePipeline_start (w : world) : world :=
  let w := with_state (set_pipelineRunning false) w in
  let w := with_doc (fun d => set_runBtn (runBtn_disabled d) "Completed" d) w in
  let w := showNotification "Pipeline completed successfully!" "success" w in
  fetch {| req_method := "GET";
           req_url := API_BASE_URL +:+ "/pipeline/"
                        +:+ show (pipelineId (state w)) +:+ "/results";
           req_body := NoBody |} w.

(** [completePipeline] after its [await]. *)
Definition completePipeline_finish (r : reply results_response) (w : world) : world :=
  match r with
  | Resolved data =>
      match res_results data with
      | Some res =>
          let (w, returned) := showResults res w in
          if returned then w
          else showNotification "Failed to fetch results" "error" w
      | None => w
      end
  | Rejected _ => showNotification "Failed to fetch results" "error" w
  end.

(** [function resetPipeline()] *)
Definition resetPipeline (w : world) : world :=
  let w := with_state (set_pipelineRunning false) w in
  with_doc (set_runBtn false "Run Pipeline") w.

(** ** Pipeline execution *)

(** [function pollPipelineStatus()]: sets the interval unless no
    pipeline id is stored. *)
Definition pollPipelineStatus (w : world) : world :=
  if negb (truthy (pipelineId (state w))) then w else setInterval w.

Definition is_active (modalId : string) (w : world) : bool :=
  match modals (doc w) !! modalId with
  | Some cl => bool_decide ("active" ∈ cl)
  | None => false
  end.

(** One firing of the interval callback of [pollPipelineStatus]: [r]
    is what the status request settles with, [rr] what the results
    request of [completePipeline] settles with. A cleared interval
    does not fire. *)
Definition poll_tick (r : reply status_data) (rr : reply results_response)
    (w : world) : world :=
  if negb (pollInterval w) then w
  else
    let w := fetch {| req_method := "GET";
                      req_url := API_BASE_URL +:+ "/pipeline/"
                                   +:+ show (pipelineId (state w)) +:+ "/status";
                      req_body := NoBody |} w in
    match r with
    | Rejected _ => w
    | Resolved data =>
        let w := updatePipelineUI data w in
        let w :=
          if String.eqb (status data) "completed" then
            completePipeline_start (clearInterval w)
          else if String.eqb (status data) "failed" then
            resetPipeline
              (showNotification ("Pipeline failed: " +:+ error data) "error"
                 (clearInterval w))
          else if String.eqb (status data) "stopped" then
            resetPipeline
              (showNotification "Pipeline stopped by user" "warning"
                 (clearInterval w))
          else w in
        let w :=
          match checkpoint data with
          | Some cp =>
              if cp_pending cp then
                if negb (is_active "checkpointModal" w)
                then showCheckpointModal cp w else w
              else w
          | None => w
          end in
        if String.eqb (status data) "completed"
        then completePipeline_finish rr w else w
    end.

(** The interval firing once per element of [replies]. *)
Definition poll_run (replies : list (reply status_data * reply results_response))
    (w : world) : world :=
  foldl (fun w rs => poll_tick (fst rs) (snd rs) w) w replies.

Record run_response : Type :=
  { run_success : bool;
    run_pipeline_id : option string;
    run_error : string }.

(** [async function startPipeline()]; [r] is what the request to
    [/pipeline/run] settles with. *)
Definition startPipeline (r : reply run_response) (w : world) : world :=
  if negb (truthy (fileId (state w))) then
    showNotification "Please upload data first" "error" w
  else
    let w := with_state (set_pipelineRunning true) w in
    let w := with_doc (set_runBtn true "Running...") w in
    let w := resetStageUI w in
    let w := fetch {| req_method := "POST";
                      req_url := API_BASE_URL +:+ "/pipeline/run";
                      req_body := RunBody (fileId (state w))
                                          (autoApprove (state w)) |} w in
    match r with
    | Resolved data =>
        if run_success data then
          pollPipelineStatus (with_state (set_pipelineId (run_pipeline_id data)) w)
        else
          resetPipeline (showNotification ("Failed to start: " +:+ run_error data) "error" w)
    | Rejected message =>
        resetPipeline (showNotification ("Connection error: " +:+ message) "error" w)
    end.

(** ** The React view [DataStudio.jsx] *)

Module DataStudio.

(** The hooks of the component, the requests it has sent, the alerts
    and navigations it has caused, and whether the interval of
    [pollStatus] is set. *)
Record component : Type :=
  { file : option File;
    uploading : bool;
    uploadStatus : option string;
    fileId : option string;
    running : bool;
    pipelineId : option string;
    error : option string;
    interval : bool;
    sent : list string;
    alerts : list string;
    navigated : list string }.

Record status_body : Type := { data_status : string; data_error : string }.


Definition clearInterval (c : component) : component :=
  {| file := file c; uploading := uploading c; uploadStatus := uploadStatus c;
     fileId := fileId c; running := running c; pipelineId := pipelineId c;
     error := error c; interval := false; sent := sent c;
     alerts := alerts c; navigated := navigated c |}.

Definition setInterval (c : component) : component :=
  {| file := file c; uploading := uploading c; uploadStatus := uploadStatus c;
     fileId := fileId c; running := running c; pipelineId := pipelineId c;
     error := error c; interval := true; sent := sent c;
     alerts := alerts c; navigated := navigated c |}.

Definition setRunning (v : bool) (c : component) : component :=
  {| file := file c; uploading := uploading c; uploadStatus := uploadStatus c;
     fileId := fileId c; running := v; pipelineId := pipelineId c;
     error := error c; interval := interval c; sent := sent c;
     alerts := alerts c; navigated := navigated c |}.


Definition setError (v : option string) (c : component) : component :=
  {| file := file c; uploading := uploading c; uploadStatus := uploadStatus c;
     fileId := fileId c; running := running c; pipelineId := pipelineId c;
     error := v; interval := interval c; sent := sent c;
     alerts := alerts c; navigated := navigated c |}.

Definition send (url : string) (c : component) : component :=
  {| file := file c; uploading := uploading c; uploadStatus := uploadStatus c;
     fileId := fileId c; running := running c; pipelineId := pipelineId c;
     error := error c; interval := interval c; sent := sent c ++ [url];
     alerts := alerts c; navigated := navigated c |}.

Definition alert (message : string) (c : component) : component :=
  {| file := file c; uploading := uploading c; uploadStatus := uploadStatus c;
     fileId := fileId c; running := running c; pipelineId := pipelineId c;
     error := error c; interval := interval c; sent := sent c;
     alerts := alerts c ++ [message]; navigated := navigated c |}.

Definition navigate (path : string) (c : component) : component :=
  {| file := file c; uploading := uploading c; uploadStatus := uploadStatus c;
     fileId := fileId c; running := running c; pipelineId := pipelineId c;
     error := error c; interval := interval c; sent := sent c;
     alerts := alerts c; navigated := navigated c ++ [path] |}.

Definition status_url (pid : string) : string :=
  "http://localhost:8080/api/pipeline/" +:+ pid +:+ "/status".

(** [const pollStatus = (pid) => { const interval = setInterval(...) }] *)
Definition pollStatus (pid : string) (c : component) : component :=
  setInterval c.

(** One firing of the interval callback of [pollStatus]; [r] is what
    [axios.get] settles with. A cleared interval does not fire. *)
Definition tick (pid : string) (r : reply status_body) (c : component) : component :=
  if negb (interval c) then c
  else
    let c := send (status_url pid) c in
    match r with
    | Resolved data =>
        if String.eqb (data_status data) "completed" then
          navigate "/"
            (alert "Model run completed successfully! Check the Dashboard."
               (setRunning false (clearInterval c)))
        else if String.eqb (data_status data) "failed" then
          setError (Some ("Pipeline execution failed: " +:+ data_error data))
            (setRunning false (clearInterval c))
        else c
    | Rejected _ =>
        setError (Some "Status check failed")
          (setRunning false (clearInterval c))
    end.

(** The interval firing once per element of [replies]. *)
Definition ticks (pid : string) (replies : list (reply status_body))
    (c : component) : component :=
  foldl (fun c r => tick pid r c) c replies.


End DataStudio.

(** ** The backend core, which the client only calls *)

(** Modelled from the spec: the error taxonomy of the backend (section
    7 of the design document); the Python modules that raise these
    errors are not part of the client sources. *)
Inductive error_kind : Type :=
| ValidationError
| InvalidParameterError
| InvalidStateError
| DuplicateDecisionError
| InfeasibleConstraintsError
| NonConvergence.

Inductive outcome (A : Type) : Type :=
| Ok (a : A)
| Err (e : error_kind).

Arguments Ok {A} a.
Arguments Err {A} e.

Module TransformEngine.

#[local] Open Scope R_scope.

(** Modelled from the spec: the recurrence of the carryover transform,
    [effect[t] = spend[t] + decay_rate * effect[t-1]], started from the
    effect [prev] of the step before. The transform itself
    (transformations.py) is not part of the client sources. *)
Fixpoint carryover_from (decay_rate prev : R) (spend : list R) : list R :=
  match spend with
  | [] => []
  | s :: rest =>
      let effect := s + decay_rate * prev in
      effect :: carryover_from decay_rate effect rest
  end.

(** Modelled from the spec: the carryover transform with
    [effect[-1] = 0]; a decay rate outside [[0, 1)] is rejected with
    [InvalidParameterError]. The transform itself (transformations.py)
    is not part of the client sources. *)
Definition carryover (decay_rate : R) (spend : list R) : outcome (list R) :=
  if decide (0 <= decay_rate < 1)
  then Ok (carryover_from decay_rate 0 spend)
  else Err InvalidParameterError.

End TransformEngine.

Module Gate.

Inductive run_status : Type :=
| pending | running | awaiting_checkpoint | completed | failed | aborted.

Inductive decision : Type :=
| undecided | approved | rejected.

#[export] Instance run_status_eq_dec : EqDecision run_status.
Proof. solve_decision. Defined.

#[export] Instance decision_eq_dec : EqDecision decision.
Proof. solve_decision. Defined.

(** Modelled from the spec: a stage artifact (section 3). *)
Record StageArtifact : Type :=
  { artifact_stage : string; payload : json; producer : string }.

(** Modelled from the spec: a checkpoint (section 3), with the note of
    its decision. *)
Record Checkpoint : Type :=
  { checkpoint_stage : string;
    summary : json;
    decided : decision;
    decided_at : option nat;
    decision_note : string }.

(** Modelled from the spec: a pipeline run (section 3). *)
Record PipelineRun : Type :=
  { identifier : string;
    stage_names : list string;
    stage_index : nat;
    run_state : run_status;
    artifacts : gmap string StageArtifact;
    error_detail : option string }.

(** Modelled from the spec: the State Store, the durable record of the
    runs and of their checkpoints, keyed by run and by run and stage. *)
Record Store : Type :=
  { runs : gmap string PipelineRun;
    checkpoints : gmap (string * string) Checkpoint }.

Definition resolve (approved : bool) (note : string) (now : nat)
    (c : Checkpoint) : Checkpoint :=
  {| checkpoint_stage := checkpoint_stage c;
     summary := summary c;
     decided := if approved then Gate.approved else rejected;
     decided_at := Some now;
     decision_note := note |}.

Definition resume (r : PipelineRun) : PipelineRun :=
  {| identifier := identifier r;
     stage_names := stage_names r;
     stage_index := S (stage_index r);
     run_state := running;
     artifacts := artifacts r;
     error_detail := error_detail r |}.

Definition abort (r : PipelineRun) : PipelineRun :=
  {| identifier := identifier r;
     stage_names := stage_names r;
     stage_index := stage_index r;
     run_state := aborted;
     artifacts := artifacts r;
     error_detail := error_detail r |}.

(** Modelled from the spec: [record_decision(run_id, stage_name,
    approved, note)] of the Checkpoint Gate (section 4.2): approval
    resumes the run at the next stage, rejection ends it as [aborted]
    and keeps its artifacts, a second decision fails with
    [DuplicateDecisionError], a decision on a run that is not awaiting
    one with [InvalidStateError]. The gate (checkpoints.py) is not part
    of the client sources. *)
Definition record_decision (run_id stage_name : string) (approved : bool)
    (note : string) (now : nat) (s : Store) : outcome Store :=
  match runs s !! run_id, checkpoints s !! (run_id, stage_name) with
  | Some r, Some c =>
      if decide (decided c = undecided) then
        if decide (run_state r = awaiting_checkpoint) then
          Ok {| runs := <[run_id := if approved then resume r else abort r]> (runs s);
                checkpoints :=
                  <[(run_id, stage_name) := resolve approved note now c]>
                    (checkpoints s) |}
        else Err InvalidStateError
      else Err DuplicateDecisionError
  | _, _ => Err InvalidStateError
  end.

End Gate.

Module Optimizer.

#[local] Open Scope R_scope.

(** Modelled from the spec: the constraints on one channel of a
    scenario (sections 3 and 4.5): fractions of the total budget, an
    optional absolute floor, the current allocation and the largest
    allowed move away from it. *)
Record ChannelBounds : Type :=
  { min_fraction : R;
    max_fraction : R;
    absolute_min : option R;
    current : R;
    max_deviation : R }.

(** Modelled from the spec: an optimization scenario (section 3); the
    allocation and the objective value are filled in by [optimize]. *)
Record OptimizationScenario : Type :=
  { scenario_name : string;
    total_budget : R;
    bounds : list ChannelBounds;
    allocation : option (list R);
    objective_value : option R }.

Definition sum (l : list R) : R := foldr Rplus 0 l.

(** The fixed relative tolerance of the budget equality. *)
Definition tolerance : R := 1 / 1000000.

Definition meets_floor (b : ChannelBounds) (spend : R) : Prop :=
  match absolute_min b with
  | Some floor => floor <= spend
  | None => True
  end.

#[export] Instance meets_floor_dec b spend : Decision (meets_floor b spend).
Proof. unfold meets_floor. destruct (absolute_min b); apply _. Defined.

(** Modelled from the spec: the per-channel constraints of section 4.5
    (fraction bounds, absolute floor, deviation cap). *)
Definition within_bounds (total : R) (b : ChannelBounds) (spend : R) : Prop :=
  min_fraction b * total <= spend <= max_fraction b * total
  /\ meets_floor b spend
  /\ Rabs (spend - current b) <= max_deviation b.

#[export] Instance within_bounds_dec total b spend :
  Decision (within_bounds total b spend).
Proof. unfold within_bounds. apply _. Defined.

(** Modelled from the spec: the validation every returned allocation
    goes through: the spends sum to the total budget within the
    relative tolerance, one spend per channel, each within its
    bounds. *)
Definition feasible (sc : OptimizationScenario) (alloc : list R) : Prop :=
  Rabs (sum alloc - total_budget sc) <= tolerance * Rabs (total_budget sc)
  /\ Forall2 (within_bounds (total_budget sc)) (bounds sc) alloc.

#[export] Instance feasible_dec sc alloc : Decision (feasible sc alloc).
Proof. unfold feasible. apply _. Defined.

(** Modelled from the spec: the objective, the total incremental
    response [Σ response_curve_i(spend_i)]. *)
Definition objective (curves : list (R -> R)) (alloc : list R) : R :=
  sum (zip_with (fun curve spend => curve spend) curves alloc).

(** The first allocation of the largest objective. *)
Fixpoint best (curves : list (R -> R)) (candidates : list (list R))
    : option (list R) :=
  match candidates with
  | [] => None
  | a :: rest =>
      match best curves rest with
      | Some b =>
          if decide (objective curves a < objective curves b)
          then Some b else Some a
      | None => Some a
      end
  end.

Definition populate (sc : OptimizationScenario) (curves : list (R -> R))
    (alloc : list R) : OptimizationScenario :=
  {| scenario_name := scenario_name sc;
     total_budget := total_budget sc;
     bounds := bounds sc;
     allocation := Some alloc;
     objective_value := Some (objective curves alloc) |}.

Section Solver.

(** One run of the gradient-based solver from the randomized start of
    the given seed, at the given convergence tolerance; [None] when it
    does not converge. The design document fixes its contract only. *)
Variable attempt :
  list (R -> R) -> OptimizationScenario -> R -> nat -> option (list R).

(** The number of randomized starts and the two convergence
    tolerances. *)
Variable starts : nat.
Variables convergence relaxed : R.

(** Modelled from the spec: one start, retried once with the relaxed
    tolerance when it does not converge. *)
Definition attempt_with_retry (curves : list (R -> R))
    (sc : OptimizationScenario) (seed : nat) : option (list R) :=
  match attempt curves sc convergence seed with
  | Some alloc => Some alloc
  | None => attempt curves sc relaxed seed
  end.

(** Modelled from the spec: [optimize(response_curves, scenario)] of
    the Budget Optimizer (section 4.5): contradictory bounds fail with
    [InfeasibleConstraintsError]; otherwise the best-objective feasible
    result of the randomized starts is validated again and returned.
    The optimizer (the SLSQP agent) is not part of the client
    sources. *)
Definition optimize (curves : list (R -> R)) (sc : OptimizationScenario)
    : outcome OptimizationScenario :=
  if decide (1 < sum (min_fraction <$> bounds sc))
  then Err InfeasibleConstraintsError
  else
    let found := omap (attempt_with_retry curves sc) (seq 0 starts) in
    match found with
    | [] => Err NonConvergence
    | _ =>
        match best curves (filter (feasible sc) found) with
        | Some alloc =>
            if decide (feasible sc alloc)
            then Ok (populate sc curves alloc)
            else Err InfeasibleConstraintsError
        | None => Err InfeasibleConstraintsError
        end
    end.

End Solver.

End Optimizer.

(** ** Notions used in the statements *)

(** The power of a base that is not negative, as a real number. *)
Definition rpow (b e : R) : R :=
  if decide (b = 0%R) then 0%R else Rpower b e.

(** A card reads as being in [status]: icon and badge carry that class
    and none of the other two, and the badge text is the capitalized
    status. *)
Definition shows (status : string) (c : card) : Prop :=
  icon c ∩ status_classes = {[status]}
  /\ badge c ∩ status_classes = {[status]}
  /\ badgeText c = capitalize status.

Definition shows_completed (c : card) : Prop :=
  shows "completed" c
  /\ cardClasses c ∩ {["active"; "completed"]} = {["completed"]}
  /\ progressWidth c = "100%".

Definition shows_running (c : card) : Prop :=
  shows "running" c
  /\ cardClasses c ∩ {["active"; "completed"]} = {["active"]}.

(** The statuses at which [pollPipelineStatus] clears its interval. *)
Definition stops_polling (s : string) : Prop :=
  s = "completed" \/ s = "failed" \/ s = "stopped".

(** [s] ends with [t]. *)
Definition ends_with (s t : string) : Prop :=
  exists prefix, s = prefix +:+ t.

(** The request [uploadFile] sends for [file]. *)
Definition upload_request (file : File) : request :=
  {| req_method := "POST";
     req_url := "http://localhost:8080/api/upload";
     req_body := FormData file |}.

(** What [updatePipelineUI] leaves of a card of an earlier stage, and
    of the card of the reported stage. *)
Definition completed_card (c : card) : card :=
  set_width "100%" (mark "completed" c).

Definition running_card (percent : Z) (c : card) : card :=
  set_width (pretty percent +:+ "%") (mark "running" c).

(** The request one firing of [pollPipelineStatus] sends. *)
Definition status_request (id : option string) : request :=
  {| req_method := "GET";
     req_url := API_BASE_URL +:+ "/pipeline/" +:+ show id +:+ "/status";
     req_body := NoBody |}.

(** A status reply that does not end the polling. *)
Definition keeps_polling (r : reply status_data) : Prop :=
  forall data, r = Resolved data -> ~ stops_polling (status data).

(** After [first] has reported a stage, the stages before it still
    read as completed once the later update [second] is applied: the
    later update has not moved the run back. *)
Definition keeps_stage_order (w : world) (first second : status_data) : Prop :=
  forall i j stageId name c,
    stage_id (current_stage first) = Some stageId ->
    stages !! i = Some stageId ->
    (j < i)%nat ->
    stages !! j = Some name ->
    cards (doc (updatePipelineUI second (updatePipelineUI first w))) !! name
      = Some c ->
    shows_completed c.

(** A page as it is before a run: six pending stage cards, both modals
    closed; and the script state after an upload and a started run. *)
Definition pending_card : card :=
  {| icon := {["stage-icon"; "pending"]};
     badge := {["status-badge"; "pending"]};
     badgeText := "Pending";
     cardClasses := {["stage-card"]};
     progressWidth := "0%" |}.

Definition sample_page : document :=
  {| uploadArea := {["upload-area"]};
     modals := {["uploadModal" := {["modal"]}; "checkpointModal" := {["modal"]}]};
     runBtn_disabled := true;
     runBtn_html := "Running...";
     cards := list_to_map ((fun name => (name, pending_card)) <$> stages);
     checkpointTitle := "";
     checkpointDescription := "";
     checkpointData_html := "";
     checkpointData_display := "none";
     resultsSection_display := "none";
     insightsSection_display := "none" |}.

Definition sample_world : world :=
  {| state := {| fileId := Some "f-1"; pipelineId := Some "p-1";
                 pipelineRunning := true; currentStage := None;
                 results := None; autoApprove := false |};
     doc := sample_page;
     notifications := [];
     requests := [];
     pollInterval := true |}.

Definition report (stage : string) (percent : Z) : status_data :=
  {| status := "running"; current_stage := Some stage; progress := percent;
     checkpoint := None; error := "" |}.

(** [w'] differs from [w] in the page only. *)
Definition page_only (w w' : world) : Prop :=
  state w' = state w
  /\ notifications w' = notifications w
  /\ requests w' = requests w
  /\ pollInterval w' = pollInterval w.

(** Three status replies that leave the run going: a stage in
    progress, a request that failed, a run waiting on a checkpoint. *)
Definition sample_replies : list (reply status_data * reply results_response) :=
  [(Resolved (report "baseline" 40), Rejected "unused");
   (Rejected "Failed to fetch", Rejected "unused");
   (Resolved {| status := "awaiting_checkpoint";
                current_stage := Some "baseline"; progress := 50;
                checkpoint := Some {| cp_pending := true; cp_stage := "baseline";
                                      cp_message := None; cp_data := None |};
                error := "" |}, Rejected "unused")].

(** The React view after an upload, with a run under way. *)
Definition sample_component : DataStudio.component :=
  {| DataStudio.file := Some {| file_name := "sales.csv"; file_data := "" |};
     DataStudio.uploading := false;
     DataStudio.uploadStatus := Some "success";
     DataStudio.fileId := Some "f-1";
     DataStudio.running := true;
     DataStudio.pipelineId := Some "p-1";
     DataStudio.error := None;
     DataStudio.interval := false;
     DataStudio.sent := ["http://localhost:8080/api/pipeline/run"];
     DataStudio.alerts := [];
     DataStudio.navigated := [] |}.

(** The request [handleCheckpointDecision] sends. *)
Definition decision_request (id : option string) (approved : bool) : request :=
  {| req_method := "POST";
     req_url := API_BASE_URL +:+ "/pipeline/" +:+ show id +:+ "/checkpoint";
     req_body := DecisionBody approved |}.

(** A store with one run that has produced three artifacts and waits
    on the checkpoint of its baseline stage. *)
Definition sample_artifact (stage : string) : Gate.StageArtifact :=
  {| Gate.artifact_stage := stage; Gate.payload := "{}"; Gate.producer := stage |}.

Definition sample_run : Gate.PipelineRun :=
  {| Gate.identifier := "p-1";
     Gate.stage_names := stages;
     Gate.stage_index := 2;
     Gate.run_state := Gate.awaiting_checkpoint;
     Gate.artifacts :=
       {["segmentation" := sample_artifact "segmentation";
         "trend" := sample_artifact "trend";
         "baseline" := sample_artifact "baseline"]};
     Gate.error_detail := None |}.

Definition sample_checkpoint : Gate.Checkpoint :=
  {| Gate.checkpoint_stage := "baseline";
     Gate.summary := "{}";
     Gate.decided := Gate.undecided;
     Gate.decided_at := None;
     Gate.decision_note := "" |}.

Definition sample_store : Gate.Store :=
  {| Gate.runs := {["p-1" := sample_run]};
     Gate.checkpoints := {[("p-1", "baseline") := sample_checkpoint]} |}.

(** The scenario of the design document: a budget of one million over
    two channels bounded by the fractions [0.2, 0.6] and [0.4, 0.8],
    and a solver whose every start ends at the split 400000/600000. *)
Definition sample_scenario : Optimizer.OptimizationScenario :=
  {| Optimizer.scenario_name := "base";
     Optimizer.total_budget := 1000000;
     Optimizer.bounds :=
       [ {| Optimizer.min_fraction := 2 / 10; Optimizer.max_fraction := 6 / 10;
            Optimizer.absolute_min := Some 100000%R;
            Optimizer.current := 500000; Optimizer.max_deviation := 200000 |};
         {| Optimizer.min_fraction := 4 / 10; Optimizer.max_fraction := 8 / 10;
            Optimizer.absolute_min := None;
            Optimizer.current := 500000; Optimizer.max_deviation := 200000 |} ];
     Optimizer.allocation := None;
     Optimizer.objective_value := None |}.

Definition sample_curves : list (R -> R) :=
  [fun spend => (spend / (100000 + spend))%R;
   fun spend => (2 * spend / (300000 + spend))%R].

Definition sample_attempt (curves : list (R -> R))
    (sc : Optimizer.OptimizationScenario) (tol : R) (seed : nat)
    : option (list R) :=
  Some [400000%R; 600000%R].

(** ** The response curve chart *)

(** [a - b] *)
Definition sub (a b : number) : number := add a (neg b).

(** The body of the loop of [drawMultiLineChart] at index [i], for a
    channel whose [optimized] spend is given: the point the path moves
    or draws to. *)
Definition curve_point (width height optimized : R) (i : nat)
    : completion (number * number) :=
  let padding := 40%R in
  let chartWidth := (width - padding * 2)%R in
  let chartHeight := (height - padding * 2)%R in
  let points := 50%R in
  let spend := (INR i / points * optimized * 2)%R in
  match hillFunction spend optimized (1 / 2) with
  | Return response =>
      let x := (padding + INR i / points * chartWidth)%R in
      let y := sub (Finite (height - padding))
                   (mul (mul (div response (Finite 100)) (Finite chartHeight))
                        (Finite (1 / 2))) in
      Return (Finite x, y)
  | Throw name => Throw name
  end.

(** ** The upload half of the React view *)

Module DataStudioView.

Import DataStudio.

Definition setFile (v : option File) (c : component) : component :=
  {| file := v; uploading := uploading c; uploadStatus := uploadStatus c;
     fileId := fileId c; running := running c; pipelineId := pipelineId c;
     error := error c; interval := interval c; sent := sent c;
     alerts := alerts c; navigated := navigated c |}.

Definition setUploading (v : bool) (c : component) : component :=
  {| file := file c; uploading := v; uploadStatus := uploadStatus c;
     fileId := fileId c; running := running c; pipelineId := pipelineId c;
     error := error c; interval := interval c; sent := sent c;
     alerts := alerts c; navigated := navigated c |}.

Definition setUploadStatus (v : option string) (c : component) : component :=
  {| file := file c; uploading := uploading c; uploadStatus := v;
     fileId := fileId c; running := running c; pipelineId := pipelineId c;
     error := error c; interval := interval c; sent := sent c;
     alerts := alerts c; navigated := navigated c |}.

Definition setFileId (v : option string) (c : component) : component :=
  {| file := file c; uploading := uploading c; uploadStatus := uploadStatus c;
     fileId := v; running := running c; pipelineId := pipelineId c;
     error := error c; interval := interval c; sent := sent c;
     alerts := alerts c; navigated := navigated c |}.

Record upload_body : Type := { data_file_id : option string }.

(** [const handleFileChange = (e) => ...], with [e.target.files[0]]. *)
Definition handleFileChange (chosen : option File) (c : component) : component :=
  match chosen with
  | Some f => setError None (setUploadStatus None (setFile (Some f) c))
  | None => c
  end.

(** [const handleUpload = async () => ...]; [r] is what the request to
    [/upload] settles with, a rejection carrying the text of
    [err.response?.data?.error || err.message]. *)
Definition handleUpload (r : reply upload_body) (c : component) : component :=
  match file c with
  | None => c
  | Some _ =>
      let c := setUploading true c in
      let c := send "http://localhost:8080/api/upload" c in
      match r with
      | Resolved data =>
          setUploading false
            (setUploadStatus (Some "success") (setFileId (data_file_id data) c))
      | Rejected message =>
          setUploadStatus (Some "error")
            (setUploading false
               (setError (Some ("Upload failed: " +:+ message)) c))
      end
  end.

(** The error line is rendered under [error]. *)
Definition error_rendered (c : component) : bool := truthy (error c).

(** What the component renders: its heading, the file input and the
    upload button under [!uploadStatus], the button disabled under
    [!file || uploading], the line 'Ready for modeling' and the run
    section under [uploadStatus === 'success'], the error line under
    [error], the run button disabled under [running]. *)
Record view : Type :=
  { heading : string;
    upload_controls : bool;
    upload_disabled : bool;
    ready_line : option string;
    error_line : option string;
    run_section : bool;
    run_disabled : bool }.

(** The [return (...)] of the component. The line 'Ready for modeling'
    evaluates [fileId.substring(0, 8)], which throws a [TypeError] when
    no file id is stored. *)
Definition render (c : component) : completion view :=
  let success := bool_decide (uploadStatus c = Some "success") in
  let rendered (ready : option string) : view :=
    {| heading := if success then "File Uploaded Successfully"
                  else "Upload Sales Data";
       upload_controls := negb (truthy (uploadStatus c));
       upload_disabled := match file c with
                          | Some _ => uploading c
                          | None => true
                          end;
       ready_line := ready;
       error_line := if error_rendered c then error c else None;
       run_section := success;
       run_disabled := running c |} in
  if success then
    match fileId c with
    | Some id =>
        Return (rendered (Some ("Ready for modeling. ID: "
                                +:+ String.substring 0 8 id +:+ "...")))
    | None => Throw "TypeError"
    end
  else Return (rendered None).

End DataStudioView.

(** ** Further notions used in the statements *)

(** The request [startPipeline] sends. *)
Definition run_request (s : app_state) : request :=
  {| req_method := "POST";
     req_url := API_BASE_URL +:+ "/pipeline/run";
     req_body := RunBody (fileId s) (autoApprove s) |}.

(** The request [completePipeline] sends. *)
Definition results_request (id : option string) : request :=
  {| req_method := "GET";
     req_url := API_BASE_URL +:+ "/pipeline/" +:+ show id +:+ "/results";
     req_body := NoBody |}.

Definition shows_pending (c : card) : Prop :=
  shows "pending" c
  /\ cardClasses c ∩ {["active"; "completed"]} = ∅
  /\ progressWidth c = "0%".

(** [w'] differs from [w] in the stage cards only. *)
Definition cards_only (w w' : world) : Prop :=
  w' = with_doc (set_cards (cards (doc w'))) w.

(** A status reply of the React view that neither completes nor fails
    the run. *)
Definition react_keeps_polling (r : reply DataStudio.status_body) : Prop :=
  exists data, r = Resolved data
    /\ DataStudio.data_status data <> "completed"
    /\ DataStudio.data_status data <> "failed".

(** A status reply of a run that waits on the checkpoint of its
    baseline stage. *)
Definition sample_pending : checkpoint_info :=
  {| cp_pending := true; cp_stage := "baseline";
     cp_message := Some "Review baseline estimates"; cp_data := None |}.

Definition sample_checkpoint_reply : status_data :=
  {| status := "running"; current_stage := Some "baseline"; progress := 50;
     checkpoint := Some sample_pending; error := "" |}.

(** ** The bar chart and the recommendations table *)

(** [Math.max(...values) || 100]: the largest value, [-Infinity] for
    no value at all, and 100 in place of a largest value of zero. *)
Definition bar_maxValue (values : list R) : number :=
  match values with
  | [] => NInf
  | v :: rest =>
      let m := foldr Rmax v rest in
      if decide (m = 0%R) then Finite 100 else Finite m
  end.

Record rect : Type :=
  { rect_x : number; rect_y : number; rect_w : number; rect_h : number }.

(** The rectangle [drawBarChart] fills for the label at index [i] of
    [n] labels, whose value is [value]. *)
Definition bar_rect (width height : R) (n : nat) (values : list R)
    (i : nat) (value : R) : rect :=
  let padding := 40%R in
  let chartWidth := (width - padding * 2)%R in
  let chartHeight := (height - padding * 2)%R in
  let barWidth := sub (div (Finite chartWidth) (Finite (INR n))) (Finite 20) in
  let maxValue := bar_maxValue values in
  let barHeight := mul (div (Finite value) maxValue) (Finite chartHeight) in
  let x := add (add (Finite padding)
                    (mul (div (Finite chartWidth) (Finite (INR n)))
                         (Finite (INR i))))
               (Finite 10) in
  let y := sub (Finite (height - padding)) barHeight in
  {| rect_x := x; rect_y := y; rect_w := barWidth; rect_h := barHeight |}.

(** The number that the string [x.toFixed(1)] reads back as: [x]
    rounded to tenths, halves away from zero; a value that is not
    finite, or one of magnitude [1e21] and more, is printed as it
    is. *)
Definition toFixed1 (x : number) : number :=
  match x with
  | Finite r =>
      if decide (1000000000000000000000 <= Rabs r)%R then Finite r
      else if decide (r < 0)%R
           then Finite (- (IZR (Int_part (10 * - r + 1 / 2)) / 10))%R
           else Finite (IZR (Int_part (10 * r + 1 / 2)) / 10)%R
  | other => other
  end.

(** [x > 0] and [x < 0] *)
Definition gt0 (x : number) : bool :=
  match x with
  | Finite r => bool_decide (0 < r)%R
  | PInf => true
  | _ => false
  end.

Definition lt0 (x : number) : bool :=
  match x with
  | Finite r => bool_decide (r < 0)%R
  | NInf => true
  | _ => false
  end.

(** The [change] of one row of [populateRecommendationsTable], as the
    number its text stands for, and the class of the row's change
    cell. *)
Definition row_change (current optimized : R) : number :=
  toFixed1 (mul (div (sub (Finite optimized) (Finite current)) (Finite current))
                (Finite 100)).

Definition changeClass (change : number) : string :=
  if gt0 change then "positive" else if lt0 change then "negative" else "neutral".

(** Results with one channel whose [roi] is missing. *)
Definition sample_results : results_doc :=
  {| results_channels :=
       Some [ {| ch_name := "TV"; ch_contribution := Some 42%R;
                 ch_current := Some 270000%R; ch_optimized := Some 310000%R;
                 ch_roi := None |} ];
     results_rest := "{}" |}.

(** * Properties *)

(** ** Saturation curve *)

Section Saturation.

#[local] Open Scope R_scope.

Lemma rpow_nonneg (b e : R) : 0 <= rpow b e.
Proof.
  unfold rpow. case_decide; [lra|].
  unfold Rpower. left. apply exp_pos.
Qed.


Lemma Math_pow_nonneg (b e : R) :
  0 <= b -> 0 < e -> Math_pow b e = Finite (rpow b e).
Proof.
  intros Hb He. unfold Math_pow, rpow.
  destruct (decide (e = 0)) as [?|_]; [lra|].
  destruct (decide (0 < b)) as [Hpos|Hnpos].
  - destruct (decide (b = 0)); [lra|done].
  - assert (b = 0) as -> by lra.
    rewrite !decide_True by (done || lra). done.
Qed.


Lemma Math_pow_pos (b e : R) : 0 < b -> e <> 0 -> Math_pow b e = Finite (Rpower b e).
Proof.
  intros Hb He. unfold Math_pow.
  rewrite decide_False by done. by rewrite decide_True.
Qed.

(** The value of the curve on its intended domain. *)
Lemma hillFunction_value (x gamma alpha : R) :
  0 <= x -> 0 < gamma -> 0 < alpha ->
  hillFunction x gamma alpha
  = Return (Finite (100 * rpow x alpha / (Rpower gamma alpha + rpow x alpha))).
Proof.
  intros Hx Hg Ha. unfold hillFunction.
  rewrite (Math_pow_nonneg x alpha) by lra.
  rewrite (Math_pow_pos gamma alpha) by lra.
  cbn [mul add div].
  pose proof (rpow_nonneg x alpha).
  assert (0 < Rpower gamma alpha) by apply exp_pos.
  rewrite decide_False by lra. done.
Qed.

Lemma ratio_bounds (G p : R) : 0 < G -> 0 <= p -> 0 <= 100 * p / (G + p) < 100.
Proof.
  intros HG Hp.
  assert (0 < / (G + p)) as Hinv by (apply Rinv_0_lt_compat; lra).
  split.
  - unfold Rdiv. apply Rmult_le_pos; [lra|lra].
  - apply Rmult_lt_reg_r with (G + p); [lra|].
    unfold Rdiv. rewrite Rmult_assoc, Rinv_l by lra. lra.
Qed.


End Saturation.

Section SaturationClaims.

#[local] Open Scope R_scope.

(** At the half-saturation spend the curve is at half of its scale of
    one hundred. *)
Lemma hillFunction_half_saturation (gamma alpha : R) :
  0 < gamma -> 0 < alpha -> hillFunction gamma gamma alpha = Return (Finite 50).
Proof.
  intros Hg Ha. rewrite hillFunction_value by lra.
  unfold rpow. rewrite decide_False by lra.
  assert (0 < Rpower gamma alpha) by apply exp_pos.
  do 2 f_equal. field. lra.
Qed.






(** C2, as the script has it: at spend 50 with half-saturation 50 and
    slope 2, [hillFunction] returns exactly 50, that is one half on
    its percent scale. *)
Theorem saturation_example_returns_50 :
  hillFunction 50 50 2 = Return (Finite 50).
Proof. apply hillFunction_half_saturation; lra. Qed.

(** C2 as stated fails: the returned number is not 0.5. *)
Lemma saturation_example_counterexample :
  hillFunction 50 50 2 <> Return (Finite (1 / 2)).
Proof.
  rewrite hillFunction_half_saturation by lra.
  intros H. injection H as H. lra.
Qed.



End SaturationClaims.

(** ** Strings *)

Lemma append_cons (c : Ascii.ascii) (a b : string) :
  String c a +:+ b = String c (a +:+ b).
Proof. reflexivity. Qed.

Lemma substring_whole (t : string) :
  String.substring 0 (String.length t) t = t.
Proof. induction t as [|c t IH]; simpl; [done|by rewrite IH]. Qed.

Lemma substring_after_prefix (p t : string) :
  String.substring (String.length p) (String.length t) (p +:+ t) = t.
Proof.
  induction p as [|c p IH]; [apply substring_whole|].
  rewrite append_cons. simpl. apply IH.
Qed.

Lemma length_append (p t : string) :
  String.length (p +:+ t) = (String.length p + String.length t)%nat.
Proof.
  induction p as [|c p IH]; [done|].
  rewrite append_cons. simpl. by rewrite IH.
Qed.

Lemma string_split_at (s : string) (n : nat) :
  (n <= String.length s)%nat ->
  s = String.substring 0 n s +:+ String.substring n (String.length s - n) s.
Proof.
  revert n. induction s as [|c s IH]; intros n Hn; simpl in Hn.
  - by replace n with 0%nat by lia.
  - destruct n as [|n]; simpl.
    + by rewrite substring_whole.
    + rewrite append_cons. f_equal. apply IH. lia.
Qed.

(** [endsWith] decides [ends_with]. *)
Lemma endsWith_spec (s t : string) : endsWith s t = true <-> ends_with s t.
Proof.
  unfold endsWith, ends_with. split.
  - case_decide as Hlen; [|done]. intros Heq%String.eqb_eq.
    exists (String.substring 0 (String.length s - String.length t) s).
    rewrite (string_split_at s (String.length s - String.length t)) at 1 by lia.
    f_equal. rewrite <- Heq at 3. f_equal. lia.
  - intros [p ->]. rewrite length_append.
    rewrite decide_True by lia. apply String.eqb_eq.
    replace (String.length p + String.length t - String.length t)%nat
      with (String.length p) by lia.
    apply substring_after_prefix.
Qed.

(** ** File upload *)

Lemma uploadFile_requests (f : File) (r : reply upload_response) (w : world) :
  requests (uploadFile f r w) = (requests w ++ [upload_request f])%list.
Proof. unfold uploadFile. destruct r as [data|msg]; [destruct (up_success data)|]; done. Qed.


(** ** Stage cards *)

Lemma stages_NoDup : NoDup stages.
Proof. apply (bool_decide_unpack _). by vm_compute. Qed.

Lemma indexOf_lookup (a : list string) (i : nat) (x : string) :
  NoDup a -> a !! i = Some x -> indexOf a x = Z.of_nat i.
Proof.
  intros Hnd. revert i. induction Hnd as [|y a Hy Hnd IH]; intros i Hi; [done|].
  destruct i as [|i]; simpl in *.
  - injection Hi as ->. by rewrite decide_True.
  - rewrite decide_False.
    + rewrite (IH i Hi). rewrite decide_False by lia. lia.
    + intros ->. apply Hy. by eapply list_elem_of_lookup_2.
Qed.

Lemma cards_complete_previous (w : world) (i : nat) (name : string) :
  stages !! i = Some name ->
  cards (doc (complete_previous w i))
  = alter completed_card name (cards (doc w)).
Proof.
  intros Hi. unfold complete_previous. rewrite Hi. cbn.
  by rewrite alter_alter_eq.
Qed.

(** The loop of [updatePipelineUI] completes the cards of the first
    [n] stages and leaves every other card alone. *)
Lemma cards_previous_loop (n : nat) (w : world) (name : string) :
  (n <= length stages)%nat ->
  cards (doc (foldl complete_previous w (seq 0 n))) !! name
  = if decide (name ∈ take n stages)
    then completed_card <$> cards (doc w) !! name
    else cards (doc w) !! name.
Proof.
  induction n as [|n IH]; intros Hn.
  - rewrite decide_False; [done|]. rewrite take_0. apply not_elem_of_nil.
  - rewrite seq_S, foldl_app. cbn [foldl Nat.add].
    destruct (lookup_lt_is_Some_2 stages n) as [nm Hnm]; [lia|].
    rewrite (cards_complete_previous _ n nm Hnm).
    rewrite (take_S_r _ _ _ Hnm).
    assert (nm ∉ take n stages) as Hfresh.
    { intros [j Hj]%list_elem_of_lookup.
      apply lookup_take_Some in Hj as [Hj Hlt].
      pose proof (NoDup_lookup _ _ _ _ stages_NoDup Hj Hnm). lia. }
    destruct (decide (name = nm)) as [->|Hne].
    + rewrite lookup_alter_eq, IH by lia.
      rewrite decide_False by done.
      rewrite decide_True; [done|].
      apply elem_of_app. right. by apply list_elem_of_singleton.
    + rewrite lookup_alter_ne, IH by (done || lia).
      destruct (decide (name ∈ take n stages)) as [Hin|Hout].
      * rewrite decide_True; [done|]. apply elem_of_app. by left.
      * rewrite decide_False; [done|].
        intros [?|?%list_elem_of_singleton]%elem_of_app; done.
Qed.

Lemma completed_card_shows (c : card) : shows_completed (completed_card c).
Proof.
  unfold shows_completed, shows, completed_card, status_classes. cbn.
  repeat split; apply set_eq; intros x; set_unfold; intuition congruence.
Qed.

Lemma running_card_shows (percent : Z) (c : card) :
  shows_running (running_card percent c).
Proof.
  unfold shows_running, shows, running_card, status_classes. cbn.
  repeat split; apply set_eq; intros x; set_unfold; intuition congruence.
Qed.

Lemma running_not_completed (c : card) : shows_running c -> ~ shows_completed c.
Proof.
  intros [[Hicon _] _] [[Hicon' _] _]. rewrite Hicon in Hicon'.
  assert ("running" ∈ ({["completed"]} : gset string)) as Hin
    by (rewrite <- Hicon'; by apply elem_of_singleton).
  by apply elem_of_singleton in Hin.
Qed.

Lemma stage_accepted (i : nat) (stageId : string) :
  stages !! i = Some stageId ->
  truthy (Some stageId) && includes stages stageId = true.
Proof.
  intros Hi. do 6 (destruct i as [|i]; [by injection Hi as <-|]). done.
Qed.

Lemma stage_not_earlier (i : nat) (stageId : string) :
  stages !! i = Some stageId -> stageId ∉ take i stages.
Proof.
  intros Hi [j Hj]%list_elem_of_lookup.
  apply lookup_take_Some in Hj as [Hj Hlt].
  pose proof (NoDup_lookup _ _ _ _ stages_NoDup Hj Hi). lia.
Qed.

(** Every card after one status update, in terms of the card before. *)
Lemma updatePipelineUI_lookup (data : status_data) (w : world) (i : nat)
    (stageId name : string) :
  stage_id (current_stage data) = Some stageId ->
  stages !! i = Some stageId ->
  cards (doc (updatePipelineUI data w)) !! name
  = if decide (name = stageId)
    then running_card (Z.rem (progress data) 20 * 5) <$> cards (doc w) !! name
    else if decide (name ∈ take i stages)
         then completed_card <$> cards (doc w) !! name
         else cards (doc w) !! name.
Proof.
  intros Hid Hi. unfold updatePipelineUI. rewrite Hid.
  rewrite (stage_accepted i stageId Hi).
  rewrite (indexOf_lookup stages i stageId stages_NoDup Hi), Nat2Z.id.
  assert (i <= length stages)%nat as Hlen
    by (apply Nat.lt_le_incl; by eapply lookup_lt_Some).
  change (cards (doc (setStageProgress ?n ?p ?v)))
    with (alter (set_width (pretty p +:+ "%")) n (cards (doc v))).
  destruct (decide (name = stageId)) as [->|Hne].
  - rewrite lookup_alter_eq, cards_previous_loop by done.
    rewrite decide_False by by apply stage_not_earlier.
    change (cards (doc (updateStageUI ?n ?s ?v)))
      with (alter (mark s) n (cards (doc v))).
    rewrite lookup_alter_eq. by destruct (cards (doc w) !! stageId).
  - rewrite lookup_alter_ne, cards_previous_loop by done.
    change (cards (doc (updateStageUI ?n ?s ?v)))
      with (alter (mark s) n (cards (doc v))).
    by rewrite lookup_alter_ne.
Qed.

(** C5, as the script has it: when a status update reports the stage at
    index [i] of the six-stage order, the card of every stage before
    [i] is marked completed with a progress of 100%, the card of stage
    [i] is marked running, and the cards of the later stages are left
    as they were; the view keeps no record of the index reached. *)
Theorem status_update_marks_stages (data : status_data) (w : world) (i : nat)
    (stageId : string) :
  stage_id (current_stage data) = Some stageId ->
  stages !! i = Some stageId ->
  (forall j name, (j < i)%nat -> stages !! j = Some name ->
     cards (doc (updatePipelineUI data w)) !! name
       = completed_card <$> cards (doc w) !! name
     /\ forall c, cards (doc (updatePipelineUI data w)) !! name = Some c ->
          shows_completed c)
  /\ (cards (doc (updatePipelineUI data w)) !! stageId
        = running_card (Z.rem (progress data) 20 * 5) <$> cards (doc w) !! stageId
      /\ forall c, cards (doc (updatePipelineUI data w)) !! stageId = Some c ->
           shows_running c)
  /\ (forall j name, (i < j)%nat -> stages !! j = Some name ->
        cards (doc (updatePipelineUI data w)) !! name = cards (doc w) !! name).
Proof.
  intros Hid Hi. split; [|split].
  - intros j name Hj Hname.
    assert (cards (doc (updatePipelineUI data w)) !! name
            = completed_card <$> cards (doc w) !! name) as Heq.
    { rewrite (updatePipelineUI_lookup data w i stageId name Hid Hi).
      rewrite decide_False.
      - rewrite decide_True; [done|].
        apply list_elem_of_lookup. exists j. by apply lookup_take_Some.
      - intros ->. pose proof (NoDup_lookup _ _ _ _ stages_NoDup Hname Hi). lia. }
    split; [done|]. intros c. rewrite Heq.
    destruct (cards (doc w) !! name); [|done].
    intros [= <-]. apply completed_card_shows.
  - assert (cards (doc (updatePipelineUI data w)) !! stageId
            = running_card (Z.rem (progress data) 20 * 5)
                <$> cards (doc w) !! stageId) as Heq.
    { rewrite (updatePipelineUI_lookup data w i stageId stageId Hid Hi).
      by rewrite decide_True. }
    split; [done|]. intros c. rewrite Heq.
    destruct (cards (doc w) !! stageId); [|done].
    intros [= <-]. apply running_card_shows.
  - intros j name Hj Hname.
    rewrite (updatePipelineUI_lookup data w i stageId name Hid Hi).
    rewrite decide_False.
    + rewrite decide_False; [done|].
      intros [k Hk]%list_elem_of_lookup.
      apply lookup_take_Some in Hk as [Hk Hlt].
      pose proof (NoDup_lookup _ _ _ _ stages_NoDup Hk Hname). lia.
    + intros ->. pose proof (NoDup_lookup _ _ _ _ stages_NoDup Hname Hi). lia.
Qed.

Lemma status_update_marks_stages_witness :
  (stage_id (current_stage (report "model_optimization" 45)) = Some "model"
   /\ stages !! 3%nat = Some "model")
  /\ (forall j name, (j < 3)%nat -> stages !! j = Some name ->
        cards (doc (updatePipelineUI (report "model_optimization" 45) sample_world))
          !! name
          = completed_card <$> cards (doc sample_world) !! name
        /\ forall c,
             cards (doc (updatePipelineUI (report "model_optimization" 45)
                           sample_world)) !! name = Some c ->
             shows_completed c)
  /\ (cards (doc (updatePipelineUI (report "model_optimization" 45) sample_world))
        !! "model"
        = running_card (Z.rem (progress (report "model_optimization" 45)) 20 * 5)
            <$> cards (doc sample_world) !! "model"
      /\ forall c,
           cards (doc (updatePipelineUI (report "model_optimization" 45)
                         sample_world)) !! "model" = Some c ->
           shows_running c)
  /\ (forall j name, (3 < j)%nat -> stages !! j = Some name ->
        cards (doc (updatePipelineUI (report "model_optimization" 45) sample_world))
          !! name = cards (doc sample_world) !! name).
Proof.
  split; [split; reflexivity|].
  apply (status_update_marks_stages (report "model_optimization" 45)
           sample_world 3 "model"); reflexivity.
Defined.

Lemma sample_segmentation_card :
  cards (doc sample_world) !! "segmentation" = Some pending_card.
Proof. by vm_compute. Qed.

(** C5 as stated fails: after an update reporting [model], a later
    update reporting [segmentation] is applied all the same, and the
    card of the first stage reads as running again instead of
    completed. *)
Lemma stage_order_counterexample :
  ~ keeps_stage_order sample_world (report "model" 65) (report "segmentation" 10).
Proof.
  intros Hkeep.
  specialize (Hkeep 3%nat 0%nat "model" "segmentation"
                (running_card 50 (completed_card pending_card))
                eq_refl eq_refl ltac:(lia) eq_refl).
  eapply running_not_completed; [apply running_card_shows|].
  apply Hkeep.
  rewrite (updatePipelineUI_lookup _ _ 0 "segmentation" "segmentation")
    by reflexivity.
  rewrite decide_True by done.
  rewrite (updatePipelineUI_lookup _ _ 3 "model" "segmentation") by reflexivity.
  rewrite decide_False by done.
  rewrite decide_True by (by apply (bool_decide_unpack _); vm_compute).
  by rewrite sample_segmentation_card.
Qed.

(** ** The status poller of the script *)

Lemma page_only_refl (w : world) : page_only w w.
Proof. by repeat split. Qed.

Lemma page_only_trans (w1 w2 w3 : world) :
  page_only w1 w2 -> page_only w2 w3 -> page_only w1 w3.
Proof.
  intros (? & ? & ? & ?) (? & ? & ? & ?). repeat split; congruence.
Qed.

Lemma page_only_with_doc (f : document -> document) (w : world) :
  page_only w (with_doc f w).
Proof. by repeat split. Qed.

Lemma page_only_previous_loop (l : list nat) (w : world) :
  page_only w (foldl complete_previous w l).
Proof.
  revert w. induction l as [|i l IH]; intros w; [apply page_only_refl|].
  simpl. eapply page_only_trans; [|apply IH]. by repeat split.
Qed.

Lemma page_only_updatePipelineUI (data : status_data) (w : world) :
  page_only w (updatePipelineUI data w).
Proof.
  unfold updatePipelineUI.
  destruct (stage_id (current_stage data)) as [stageId|]; [|apply page_only_refl].
  destruct (truthy (Some stageId) && includes stages stageId);
    [|apply page_only_refl].
  eapply page_only_trans; [|apply page_only_with_doc].
  eapply page_only_trans; [|apply page_only_previous_loop].
  apply page_only_with_doc.
Qed.

Lemma page_only_showCheckpointModal (cp : checkpoint_info) (w : world) :
  page_only w (showCheckpointModal cp w).
Proof. unfold showCheckpointModal. by destruct (cp_data cp). Qed.

(** The part of the interval callback that handles a checkpoint. *)
Lemma page_only_checkpoint_step (data : status_data) (w : world) :
  page_only w
    match checkpoint data with
    | Some cp =>
        if cp_pending cp then
          if negb (is_active "checkpointModal" w)
          then showCheckpointModal cp w else w
        else w
    | None => w
    end.
Proof.
  destruct (checkpoint data) as [cp|]; [|apply page_only_refl].
  destruct (cp_pending cp); [|apply page_only_refl].
  destruct (negb (is_active "checkpointModal" w)); [|apply page_only_refl].
  apply page_only_showCheckpointModal.
Qed.

Lemma pollInterval_completePipeline_finish (rr : reply results_response) (w : world) :
  pollInterval (completePipeline_finish rr w) = pollInterval w.
Proof.
  destruct rr as [data|msg]; [destruct data as [[res|]]|]; try done.
  unfold completePipeline_finish, showResults. cbn. by destruct (draws res).
Qed.

Lemma eqb_status_false (s t : string) : s <> t -> String.eqb s t = false.
Proof. by intros ?%String.eqb_neq. Qed.

(** A reply that does not end the polling costs one request and
    leaves interval and script state as they were. *)
Lemma poll_tick_continues (r : reply status_data) (rr : reply results_response)
    (w : world) :
  pollInterval w = true -> keeps_polling r ->
  pollInterval (poll_tick r rr w) = true
  /\ requests (poll_tick r rr w)
     = (requests w ++ [status_request (pipelineId (state w))])%list
  /\ state (poll_tick r rr w) = state w.
Proof.
  intros Hw Hkeep. unfold poll_tick. rewrite Hw. cbn [negb].
  destruct r as [data|msg]; [|done].
  assert (~ stops_polling (status data)) as Hns by by apply Hkeep.
  unfold stops_polling in Hns.
  rewrite !eqb_status_false by tauto.
  match goal with
  | |- context [updatePipelineUI data ?v] =>
      destruct (page_only_updatePipelineUI data v) as (Hs1 & _ & Hr1 & Hp1);
      destruct (page_only_checkpoint_step data (updatePipelineUI data v))
        as (Hs & _ & Hr & Hp)
  end.
  rewrite Hs, Hr, Hp, Hs1, Hr1, Hp1. done.
Qed.

(** The interval is cleared by exactly the three final statuses. *)
Lemma poll_tick_stops (r : reply status_data) (rr : reply results_response)
    (w : world) :
  pollInterval w = true ->
  pollInterval (poll_tick r rr w) = false
  <-> exists data, r = Resolved data /\ stops_polling (status data).
Proof.
  intros Hw. split.
  - intros Hoff. destruct r as [data|msg].
    + exists data. split; [done|].
      destruct (decide (stops_polling (status data))) as [|Hns]; [done|].
      destruct (poll_tick_continues (Resolved data) rr w Hw) as [Hon _].
      * by intros ? [= <-].
      * congruence.
    + unfold poll_tick in Hoff. rewrite Hw in Hoff. cbn in Hoff. congruence.
  - intros (data & -> & Hstop). unfold poll_tick. rewrite Hw. cbn [negb].
    set (w1 := updatePipelineUI data _).
    destruct Hstop as [Hs|[Hs|Hs]]; rewrite Hs; cbn [String.eqb Ascii.eqb Bool.eqb];
      rewrite ?pollInterval_completePipeline_finish;
      match goal with
      | |- pollInterval (match checkpoint data with _ => _ end) = _ =>
          edestruct (page_only_checkpoint_step data) as (_ & _ & _ & ->)
      end; done.
Qed.

Lemma poll_run_continues (replies : list (reply status_data * reply results_response))
    (w : world) :
  pollInterval w = true ->
  Forall (fun rs => keeps_polling (fst rs)) replies ->
  pollInterval (poll_run replies w) = true
  /\ requests (poll_run replies w)
     = (requests w
        ++ replicate (length replies) (status_request (pipelineId (state w))))%list
  /\ state (poll_run replies w) = state w.
Proof.
  intros Hw Hall. revert w Hw.
  induction Hall as [|[r rr] replies Hr _ IH]; intros w Hw.
  - simpl. by rewrite app_nil_r.
  - destruct (poll_tick_continues r rr w Hw Hr) as (Hon & Hreq & Hst).
    destruct (IH _ Hon) as (Hon' & Hreq' & Hst').
    unfold poll_run in *. cbn [foldl fst snd length replicate].
    rewrite Hon', Hreq', Hst', Hreq, Hst.
    by rewrite <- app_assoc.
Qed.

(** C8: while the status replies are anything but [completed],
    [failed] or [stopped] (a failed request and a run waiting on a
    checkpoint included), the poller stays on and has sent one status
    request per firing, however many firings there are; and the next
    firing clears the interval if and only if its reply carries one of
    those three statuses. *)
Theorem poller_stops_only_on_final_status
    (replies : list (reply status_data * reply results_response))
    (r : reply status_data) (rr : reply results_response) (w : world) :
  pollInterval w = true ->
  Forall (fun rs => keeps_polling (fst rs)) replies ->
  pollInterval (poll_run replies w) = true
  /\ requests (poll_run replies w)
     = (requests w
        ++ replicate (length replies) (status_request (pipelineId (state w))))%list
  /\ (pollInterval (poll_tick r rr (poll_run replies w)) = false
      <-> exists data, r = Resolved data /\ stops_polling (status data)).
Proof.
  intros Hw Hall.
  destruct (poll_run_continues replies w Hw Hall) as (Hon & Hreq & _).
  split; [done|]. split; [done|]. by apply poll_tick_stops.
Qed.

Lemma sample_replies_keep_polling :
  Forall (fun rs => keeps_polling (fst rs)) sample_replies.
Proof.
  repeat constructor; intros data [= <-]; unfold stops_polling; cbn;
    intros [|[|]]; discriminate.
Qed.

Lemma poller_stops_only_on_final_status_witness :
  (pollInterval sample_world = true
   /\ Forall (fun rs => keeps_polling (fst rs)) sample_replies)
  /\ pollInterval (poll_run sample_replies sample_world) = true
  /\ requests (poll_run sample_replies sample_world)
     = (requests sample_world
        ++ replicate (length sample_replies)
             (status_request (pipelineId (state sample_world))))%list
  /\ (pollInterval
        (poll_tick (Resolved (report "insight" 100)) (Rejected "unused")
           (poll_run sample_replies sample_world)) = false
      <-> exists data,
            Resolved (report "insight" 100) = Resolved data
            /\ stops_polling (status data)).
Proof.
  split; [split; [reflexivity | apply sample_replies_keep_polling]|].
  apply poller_stops_only_on_final_status;
    [reflexivity | apply sample_replies_keep_polling].
Defined.

(** ** The status poller of the React view *)

Lemma tick_cleared (pid : string) (r : reply DataStudio.status_body)
    (c : DataStudio.component) :
  DataStudio.interval c = false -> DataStudio.tick pid r c = c.
Proof. intros H. unfold DataStudio.tick. by rewrite H. Qed.

Lemma ticks_cleared (pid : string) (replies : list (reply DataStudio.status_body))
    (c : DataStudio.component) :
  DataStudio.interval c = false -> DataStudio.ticks pid replies c = c.
Proof.
  revert c. induction replies as [|r replies IH]; intros c Hc; [done|].
  unfold DataStudio.ticks in *. simpl. rewrite tick_cleared by done. by apply IH.
Qed.

Lemma ticks_app (pid : string) (l k : list (reply DataStudio.status_body))
    (c : DataStudio.component) :
  DataStudio.ticks pid (l ++ k) c
  = DataStudio.ticks pid k (DataStudio.ticks pid l c).
Proof. apply foldl_app. Qed.

(** C10: in the React Data Studio view, when a status request throws
    while the interval is set, that firing clears the interval, sets
    the running flag to false and reports 'Status check failed'; no
    later firing sends a request or changes the component, whatever
    the backend would have answered. *)
Theorem react_poll_gives_up_on_error (pid message : string)
    (before after : list (reply DataStudio.status_body))
    (c : DataStudio.component) :
  DataStudio.interval (DataStudio.ticks pid before c) = true ->
  DataStudio.interval
    (DataStudio.ticks pid (before ++ Rejected message :: after) c) = false
  /\ DataStudio.running
       (DataStudio.ticks pid (before ++ Rejected message :: after) c) = false
  /\ DataStudio.error
       (DataStudio.ticks pid (before ++ Rejected message :: after) c)
     = Some "Status check failed"
  /\ DataStudio.sent
       (DataStudio.ticks pid (before ++ Rejected message :: after) c)
     = (DataStudio.sent (DataStudio.ticks pid before c)
        ++ [DataStudio.status_url pid])%list
  /\ DataStudio.ticks pid (before ++ Rejected message :: after) c
     = DataStudio.ticks pid (before ++ [Rejected message]) c.
Proof.
  intros Hon.
  assert (forall rest,
            DataStudio.ticks pid (before ++ Rejected message :: rest) c
            = DataStudio.tick pid (Rejected message) (DataStudio.ticks pid before c))
    as Hstep.
  { intros rest. rewrite ticks_app.
    change (DataStudio.ticks pid (Rejected message :: rest) ?d)
      with (DataStudio.ticks pid rest (DataStudio.tick pid (Rejected message) d)).
    apply ticks_cleared. unfold DataStudio.tick. by rewrite Hon. }
  rewrite !Hstep. unfold DataStudio.tick. rewrite Hon. done.
Qed.

Lemma react_poll_gives_up_on_error_witness :
  DataStudio.interval
    (DataStudio.ticks "p-1"
       [Resolved {| DataStudio.data_status := "running";
                    DataStudio.data_error := "" |}]
       (DataStudio.pollStatus "p-1" sample_component)) = true
  /\ DataStudio.interval
       (DataStudio.ticks "p-1"
          ([Resolved {| DataStudio.data_status := "running";
                        DataStudio.data_error := "" |}]
           ++ Rejected "Network Error"
              :: [Resolved {| DataStudio.data_status := "completed";
                              DataStudio.data_error := "" |}])
          (DataStudio.pollStatus "p-1" sample_component)) = false.
Proof.
  split; [reflexivity|].
  apply (react_poll_gives_up_on_error "p-1" "Network Error"
           [Resolved {| DataStudio.data_status := "running";
                        DataStudio.data_error := "" |}]
           [Resolved {| DataStudio.data_status := "completed";
                        DataStudio.data_error := "" |}]
           (DataStudio.pollStatus "p-1" sample_component)).
  reflexivity.
Defined.

(** ** Carryover transform *)

Section Carryover.

#[local] Open Scope R_scope.

Import TransformEngine.

Lemma carryover_from_length (decay_rate prev : R) (spend : list R) :
  length (carryover_from decay_rate prev spend) = length spend.
Proof.
  revert prev. induction spend as [|s rest IH]; intros prev; [done|].
  simpl. by rewrite IH.
Qed.

(** Each effect is the spend of its step plus the decayed effect of
    the step before. *)
Lemma carryover_from_lookup (decay_rate prev : R) (spend : list R) (t : nat) (s : R) :
  spend !! t = Some s ->
  carryover_from decay_rate prev spend !! t
  = Some (s + decay_rate
              * match t with
                | O => prev
                | S t' => default 0 (carryover_from decay_rate prev spend !! t')
                end).
Proof.
  revert prev t. induction spend as [|s0 rest IH]; intros prev t Ht; [done|].
  destruct t as [|t]; simpl in *.
  - by injection Ht as ->.
  - rewrite (IH _ t Ht). by destruct t.
Qed.

(** C4: for every decay rate in [[0, 1)] and every spend sequence the
    carryover transform returns an effect sequence of the same length
    with [effect[t] = spend[t] + decay_rate * effect[t-1]] and
    [effect[-1] = 0]; and a decay rate of 0.5 on [100, 100, 100] gives
    [100, 150, 175]. *)
Theorem carryover_recurrence (decay_rate : R) (spend : list R) :
  0 <= decay_rate < 1 ->
  (exists effect,
     carryover decay_rate spend = Ok effect
     /\ length effect = length spend
     /\ forall t s, spend !! t = Some s ->
          effect !! t
          = Some (s + decay_rate
                      * match t with
                        | O => 0
                        | S t' => default 0 (effect !! t')
                        end))
  /\ carryover (1 / 2) [100; 100; 100] = Ok [100; 150; 175].
Proof.
  intros Hd. split.
  - exists (carryover_from decay_rate 0 spend).
    unfold carryover. rewrite decide_True by done.
    split; [done|]. split; [apply carryover_from_length|].
    intros t s. apply carryover_from_lookup.
  - unfold carryover. rewrite decide_True by lra.
    simpl. repeat f_equal; lra.
Qed.

Lemma carryover_recurrence_witness :
  0 <= 1 / 2 < 1
  /\ (exists effect,
        carryover (1 / 2) [100; 100; 100] = Ok effect
        /\ length effect = length [100; 100; 100]
        /\ forall t s, [100; 100; 100] !! t = Some s ->
             effect !! t
             = Some (s + 1 / 2
                         * match t with
                           | O => 0
                           | S t' => default 0 (effect !! t')
                           end))
  /\ carryover (1 / 2) [100; 100; 100] = Ok [100; 150; 175].
Proof.
  split; [lra|]. apply (carryover_recurrence (1 / 2) [100; 100; 100]). lra.
Defined.

End Carryover.

(** ** Checkpoint gate *)

(** C6: for a run that waits on a checkpoint still undecided,
    recording a rejection succeeds and leaves the run [aborted] with
    the artifacts it had, the other runs untouched; on its side the
    client sends the decision [approved = false] and changes nothing
    in its own state. *)
Theorem rejection_aborts_and_keeps_artifacts (s : Gate.Store)
    (run_id stage_name note : string) (now : nat)
    (r : Gate.PipelineRun) (c : Gate.Checkpoint)
    (answer : reply decision_response) (w : world) :
  Gate.runs s !! run_id = Some r ->
  Gate.run_state r = Gate.awaiting_checkpoint ->
  Gate.checkpoints s !! (run_id, stage_name) = Some c ->
  Gate.decided c = Gate.undecided ->
  (exists s' r',
     Gate.record_decision run_id stage_name false note now s = Ok s'
     /\ Gate.runs s' !! run_id = Some r'
     /\ Gate.run_state r' = Gate.aborted
     /\ Gate.artifacts r' = Gate.artifacts r
     /\ forall other, other <> run_id ->
          Gate.runs s' !! other = Gate.runs s !! other)
  /\ requests (handleCheckpointDecision false answer w)
     = (requests w ++ [decision_request (pipelineId (state w)) false])%list
  /\ state (handleCheckpointDecision false answer w) = state w.
Proof.
  intros Hr Hwait Hc Hund. split.
  - eexists _, (Gate.abort r). unfold Gate.record_decision.
    rewrite Hr, Hc. rewrite !decide_True by done.
    split; [reflexivity|]. cbn. split; [apply lookup_insert_eq|].
    split; [done|]. split; [done|].
    intros other Hother. by apply lookup_insert_ne.
  - unfold handleCheckpointDecision.
    destruct answer as [data|msg]; [destruct (dec_success data)|]; done.
Qed.

Lemma rejection_aborts_and_keeps_artifacts_witness :
  (Gate.runs sample_store !! "p-1" = Some sample_run
   /\ Gate.run_state sample_run = Gate.awaiting_checkpoint
   /\ Gate.checkpoints sample_store !! ("p-1", "baseline") = Some sample_checkpoint
   /\ Gate.decided sample_checkpoint = Gate.undecided)
  /\ (exists s' r',
        Gate.record_decision "p-1" "baseline" false "wrong baseline" 7 sample_store
          = Ok s'
        /\ Gate.runs s' !! "p-1" = Some r'
        /\ Gate.run_state r' = Gate.aborted
        /\ Gate.artifacts r' = Gate.artifacts sample_run
        /\ forall other, other <> "p-1" ->
             Gate.runs s' !! other = Gate.runs sample_store !! other)
  /\ requests (handleCheckpointDecision false
                 (Resolved {| dec_success := true; dec_error := "" |}) sample_world)
     = (requests sample_world
        ++ [decision_request (pipelineId (state sample_world)) false])%list
  /\ state (handleCheckpointDecision false
              (Resolved {| dec_success := true; dec_error := "" |}) sample_world)
     = state sample_world.
Proof.
  split; [repeat split; reflexivity|].
  apply (rejection_aborts_and_keeps_artifacts sample_store "p-1" "baseline"
           "wrong baseline" 7 sample_run sample_checkpoint);
    reflexivity.
Defined.

(** ** Budget optimizer *)

Section OptimizerClaims.

#[local] Open Scope R_scope.

Import Optimizer.

(** C7: every scenario the optimizer returns carries an allocation
    whose spends sum to the scenario's total budget within the
    relative tolerance of [1e-6], each spend within the bounds of its
    channel. *)
Theorem optimized_allocation_is_feasible
    (attempt : list (R -> R) -> OptimizationScenario -> R -> nat -> option (list R))
    (starts : nat) (convergence relaxed : R)
    (curves : list (R -> R)) (sc result : OptimizationScenario) :
  optimize attempt starts convergence relaxed curves sc = Ok result ->
  exists alloc,
    allocation result = Some alloc
    /\ total_budget result = total_budget sc
    /\ bounds result = bounds sc
    /\ Rabs (sum alloc - total_budget result)
       <= 1 / 1000000 * Rabs (total_budget result)
    /\ Forall2 (within_bounds (total_budget result)) (bounds result) alloc.
Proof.
  unfold optimize. case_decide; [done|].
  destruct (omap _ _) as [|a found]; [done|].
  destruct (best curves _) as [alloc|]; [|done].
  case_decide as Hfeasible; [|done].
  intros [= <-]. exists alloc. destruct Hfeasible as [Hsum Hbounds]. done.
Qed.

Lemma sample_allocation_feasible :
  feasible sample_scenario [400000; 600000].
Proof.
  unfold feasible, sample_scenario, tolerance, sum. cbn. split.
  - unfold Rabs. repeat destruct Rcase_abs; lra.
  - repeat constructor; cbn; try lra; unfold Rabs; destruct Rcase_abs; lra.
Qed.

Lemma sample_optimize :
  optimize sample_attempt 3 (1 / 1000000000) (1 / 1000000) sample_curves
    sample_scenario
  = Ok (populate sample_scenario sample_curves [400000; 600000]).
Proof.
  unfold optimize. rewrite decide_False by (cbn; lra).
  cbn [omap list_omap seq attempt_with_retry sample_attempt].
  rewrite !filter_cons_True by apply sample_allocation_feasible.
  rewrite filter_nil. cbn [best].
  rewrite !decide_False by lra.
  by rewrite decide_True by apply sample_allocation_feasible.
Qed.

Lemma optimized_allocation_is_feasible_witness :
  optimize sample_attempt 3 (1 / 1000000000) (1 / 1000000) sample_curves
    sample_scenario
  = Ok (populate sample_scenario sample_curves [400000; 600000])
  /\ exists alloc,
       allocation (populate sample_scenario sample_curves [400000; 600000])
         = Some alloc
       /\ total_budget (populate sample_scenario sample_curves [400000; 600000])
          = total_budget sample_scenario
       /\ bounds (populate sample_scenario sample_curves [400000; 600000])
          = bounds sample_scenario
       /\ Rabs (sum alloc
                - total_budget
                    (populate sample_scenario sample_curves [400000; 600000]))
          <= 1 / 1000000
             * Rabs (total_budget
                       (populate sample_scenario sample_curves [400000; 600000]))
       /\ Forall2
            (within_bounds
               (total_budget
                  (populate sample_scenario sample_curves [400000; 600000])))
            (bounds (populate sample_scenario sample_curves [400000; 600000]))
            alloc.
Proof.
  split; [apply sample_optimize|].
  apply (optimized_allocation_is_feasible sample_attempt 3 (1 / 1000000000)
           (1 / 1000000) sample_curves sample_scenario).
  apply sample_optimize.
Defined.

End OptimizerClaims.

(** * Further properties of the script *)

(** ** Starting a run *)

Lemma list_app_one_neq {A : Type} (l : list A) (x : A) : l <> (l ++ [x])%list.
Proof.
  intros H. apply (f_equal length) in H. rewrite length_app in H.
  simpl in H. lia.
Qed.

Lemma startPipeline_requests (r : reply run_response) (w : world) :
  truthy (fileId (state w)) = true ->
  requests (startPipeline r w) = (requests w ++ [run_request (state w)])%list.
Proof.
  intros Hf. unfold startPipeline. rewrite Hf. cbn [negb].
  destruct r as [data|msg]; [destruct (run_success data)|]; try done.
  unfold pollPipelineStatus. by case_match.
Qed.

(** X1: [startPipeline] sends the run request, carrying the stored
    file id and the configuration, exactly when a file id is stored;
    without one it shows 'Please upload data first' and changes
    nothing else. *)
Theorem startPipeline_needs_upload (r : reply run_response) (w : world) :
  (truthy (fileId (state w)) = true
   <-> requests (startPipeline r w)
       = (requests w ++ [run_request (state w)])%list)
  /\ (truthy (fileId (state w)) = false ->
      requests (startPipeline r w) = requests w
      /\ notifications (startPipeline r w)
         = (notifications w ++ [("Please upload data first", "error")])%list
      /\ state (startPipeline r w) = state w
      /\ doc (startPipeline r w) = doc w
      /\ pollInterval (startPipeline r w) = pollInterval w).
Proof.
  split.
  - split; [apply startPipeline_requests|].
    destruct (truthy (fileId (state w))) eqn:Hf; [done|].
    unfold startPipeline. rewrite Hf. cbn. intros H.
    by apply list_app_one_neq in H.
  - intros Hf. unfold startPipeline. by rewrite Hf.
Qed.

Lemma mark_pending_shows (c : card) :
  shows_pending (set_width "0%" (mark "pending" c)).
Proof.
  unfold shows_pending, shows, status_classes. cbn.
  repeat split; apply set_eq; intros x; set_unfold; intuition congruence.
Qed.

(** X2: [resetStageUI] leaves every stage card of the page reading as
    pending with an empty progress bar, adds and removes no card, and
    touches nothing but the cards. *)
Theorem resetStageUI_all_pending (w : world) :
  (forall name,
     cards (doc (resetStageUI w)) !! name
     = (fun c => set_width "0%" (mark "pending" c)) <$> cards (doc w) !! name)
  /\ (forall name c,
        cards (doc (resetStageUI w)) !! name = Some c -> shows_pending c)
  /\ cards_only w (resetStageUI w).
Proof.
  split; [|split].
  - intros name. apply lookup_fmap.
  - intros name c. cbn. rewrite lookup_fmap.
    destruct (cards (doc w) !! name); [|done].
    intros [= <-]. apply mark_pending_shows.
  - done.
Qed.

(** X3: when a file id is stored and the backend accepts the run with
    a pipeline id, [startPipeline] stores that id, sets the poller's
    interval, leaves the run button disabled and labelled 'Running...',
    and every stage card reads as pending. *)
Theorem startPipeline_starts_polling (data : run_response) (w : world) :
  truthy (fileId (state w)) = true ->
  run_success data = true ->
  truthy (run_pipeline_id data) = true ->
  pollInterval (startPipeline (Resolved data) w) = true
  /\ pipelineId (state (startPipeline (Resolved data) w)) = run_pipeline_id data
  /\ pipelineRunning (state (startPipeline (Resolved data) w)) = true
  /\ runBtn_disabled (doc (startPipeline (Resolved data) w)) = true
  /\ runBtn_html (doc (startPipeline (Resolved data) w)) = "Running..."
  /\ notifications (startPipeline (Resolved data) w) = notifications w
  /\ forall name c,
       cards (doc (startPipeline (Resolved data) w)) !! name = Some c ->
       shows_pending c.
Proof.
  intros Hf Hok Hid. unfold startPipeline. rewrite Hf, Hok. cbn [negb].
  unfold pollPipelineStatus. cbn [state with_state set_pipelineId pipelineId].
  rewrite Hid. cbn [negb]. repeat (split; [done|]).
  intros name c. cbn. rewrite lookup_fmap.
  destruct (cards (doc w) !! name); [|done].
  intros [= <-]. apply mark_pending_shows.
Qed.

Lemma startPipeline_starts_polling_witness :
  (truthy (fileId (state sample_world)) = true
   /\ run_success {| run_success := true; run_pipeline_id := Some "p-2";
                     run_error := "" |} = true
   /\ truthy (run_pipeline_id {| run_success := true; run_pipeline_id := Some "p-2";
                                 run_error := "" |}) = true)
  /\ pollInterval
       (startPipeline (Resolved {| run_success := true; run_pipeline_id := Some "p-2";
                                   run_error := "" |}) sample_world) = true.
Proof.
  split; [repeat split; reflexivity|].
  apply (startPipeline_starts_polling
           {| run_success := true; run_pipeline_id := Some "p-2"; run_error := "" |}
           sample_world); reflexivity.
Defined.

(** X4: when the backend accepts the run but its reply carries no
    pipeline id, [startPipeline] sets no interval and shows no
    notification, yet the run stays flagged as running and the run
    button stays disabled. *)
Theorem startPipeline_without_id_stalls (data : run_response) (w : world) :
  truthy (fileId (state w)) = true ->
  run_success data = true ->
  truthy (run_pipeline_id data) = false ->
  pollInterval (startPipeline (Resolved data) w) = pollInterval w
  /\ pipelineRunning (state (startPipeline (Resolved data) w)) = true
  /\ runBtn_disabled (doc (startPipeline (Resolved data) w)) = true
  /\ notifications (startPipeline (Resolved data) w) = notifications w.
Proof.
  intros Hf Hok Hid. unfold startPipeline. rewrite Hf, Hok. cbn [negb].
  unfold pollPipelineStatus. cbn [state with_state set_pipelineId pipelineId].
  by rewrite Hid.
Qed.

Lemma startPipeline_without_id_stalls_witness :
  (truthy (fileId (state sample_world)) = true
   /\ run_success {| run_success := true; run_pipeline_id := None;
                     run_error := "" |} = true
   /\ truthy (run_pipeline_id {| run_success := true; run_pipeline_id := None;
                                 run_error := "" |}) = false)
  /\ pipelineRunning
       (state (startPipeline (Resolved {| run_success := true;
                                          run_pipeline_id := None;
                                          run_error := "" |}) sample_world))
     = true.
Proof.
  split; [repeat split; reflexivity|].
  apply (startPipeline_without_id_stalls
           {| run_success := true; run_pipeline_id := None; run_error := "" |}
           sample_world); reflexivity.
Defined.

(** X5: when the run request fails, by a reply without success or by
    a network error, [startPipeline] ends with the run flag cleared,
    the run button enabled and labelled 'Run Pipeline', the interval
    and the stored pipeline id as they were, and an error notification
    shown last. *)
Theorem startPipeline_failure_resets (r : reply run_response) (w : world) :
  truthy (fileId (state w)) = true ->
  (forall data, r = Resolved data -> run_success data = false) ->
  pipelineRunning (state (startPipeline r w)) = false
  /\ runBtn_disabled (doc (startPipeline r w)) = false
  /\ runBtn_html (doc (startPipeline r w)) = "Run Pipeline"
  /\ pollInterval (startPipeline r w) = pollInterval w
  /\ pipelineId (state (startPipeline r w)) = pipelineId (state w)
  /\ exists message,
       notifications (startPipeline r w)
       = (notifications w ++ [(message, "error")])%list.
Proof.
  intros Hf Hfail. unfold startPipeline. rewrite Hf. cbn [negb].
  destruct r as [data|msg].
  - rewrite (Hfail data eq_refl). repeat (split; [done|]). by eexists.
  - repeat (split; [done|]). by eexists.
Qed.

Lemma startPipeline_failure_resets_witness :
  (truthy (fileId (state sample_world)) = true
   /\ forall data, Rejected "Failed to fetch" = Resolved data ->
        run_success data = false)
  /\ runBtn_disabled
       (doc (startPipeline (Rejected "Failed to fetch") sample_world)) = false.
Proof.
  split; [split; [reflexivity | intros data H; discriminate H]|].
  apply (startPipeline_failure_resets (Rejected "Failed to fetch") sample_world);
    [reflexivity | intros data H; discriminate H].
Defined.

(** ** Stage cards, continued *)

Lemma world_eta (w : world) : with_doc (set_cards (cards (doc w))) w = w.
Proof. by destruct w as [s [] n r p]. Qed.

Lemma alter_absent {A : Type} (f : A -> A) (m : gmap string A) (k : string) :
  m !! k = None -> alter f k m = m.
Proof.
  intros Hk. apply map_eq. intros j.
  destruct (decide (k = j)) as [<-|Hne].
  - by rewrite lookup_alter_eq, Hk.
  - by rewrite lookup_alter_ne.
Qed.

(** X6: when the page has no card for a stage name, [updateStageUI]
    and [setStageProgress] for that name change nothing at all. *)
Theorem stage_update_without_card (stageName status : string) (percent : Z)
    (w : world) :
  cards (doc w) !! stageName = None ->
  updateStageUI stageName status w = w
  /\ setStageProgress stageName percent w = w.
Proof.
  intros Hnone. unfold updateStageUI, setStageProgress.
  split; rewrite <- (world_eta w) at 2; unfold with_doc; cbn;
    by rewrite alter_absent.
Qed.

Lemma stage_update_without_card_witness :
  cards (doc sample_world) !! "forecast" = None
  /\ updateStageUI "forecast" "running" sample_world = sample_world
  /\ setStageProgress "forecast" 40 sample_world = sample_world.
Proof.
  split; [by vm_compute|].
  apply (stage_update_without_card "forecast" "running" 40 sample_world).
  by vm_compute.
Defined.

Lemma updatePipelineUI_skip (data : status_data) (w : world) :
  (forall stageId, stage_id (current_stage data) = Some stageId ->
     stageId ∉ stages) ->
  updatePipelineUI data w = w.
Proof.
  intros Hunknown. unfold updatePipelineUI.
  destruct (stage_id (current_stage data)) as [stageId|]; [|done].
  unfold includes. rewrite bool_decide_eq_false_2 by by apply Hunknown.
  by rewrite andb_false_r.
Qed.

(** X7: a status update whose stage, after the renaming of the backend
    names, is missing or is none of the six stage names changes
    nothing: the cards keep showing what they showed. *)
Theorem updatePipelineUI_ignores_unknown_stage (data : status_data) (w : world) :
  (forall stageId, stage_id (current_stage data) = Some stageId ->
     stageId ∉ stages) ->
  updatePipelineUI data w = w.
Proof. apply updatePipelineUI_skip. Qed.

Lemma updatePipelineUI_ignores_unknown_stage_witness :
  (forall stageId,
     stage_id (current_stage (report "baseline_estimation" 50)) = Some stageId ->
     stageId ∉ stages)
  /\ updatePipelineUI (report "baseline_estimation" 50) sample_world = sample_world.
Proof.
  assert (forall stageId,
            stage_id (current_stage (report "baseline_estimation" 50))
            = Some stageId -> stageId ∉ stages) as H.
  { intros stageId [= <-]. apply (bool_decide_unpack _). by vm_compute. }
  split; [exact H|].
  apply (updatePipelineUI_ignores_unknown_stage
           (report "baseline_estimation" 50) sample_world H).
Defined.

Lemma cards_only_refl (w : world) : cards_only w w.
Proof. unfold cards_only. by rewrite world_eta. Qed.

Lemma cards_only_trans (w1 w2 w3 : world) :
  cards_only w1 w2 -> cards_only w2 w3 -> cards_only w1 w3.
Proof.
  unfold cards_only. intros H12 H23. rewrite H23 at 1. rewrite H12 at 1.
  by destruct w1 as [s [] n r p].
Qed.

Lemma cards_only_alter (f : card -> card) (name : string) (w : world) :
  cards_only w (with_doc (fun d => set_cards (alter f name (cards d)) d) w).
Proof. done. Qed.

Lemma cards_only_previous_loop (l : list nat) (w : world) :
  cards_only w (foldl complete_previous w l).
Proof.
  revert w. induction l as [|i l IH]; intros w; [apply cards_only_refl|].
  simpl. eapply cards_only_trans; [|apply IH].
  unfold complete_previous.
  eapply cards_only_trans; apply cards_only_alter.
Qed.

Lemma updatePipelineUI_cards_only (data : status_data) (w : world) :
  cards_only w (updatePipelineUI data w).
Proof.
  unfold updatePipelineUI.
  destruct (stage_id (current_stage data)) as [stageId|];
    [|apply cards_only_refl].
  destruct (truthy (Some stageId) && includes stages stageId);
    [|apply cards_only_refl].
  eapply cards_only_trans; [|apply cards_only_alter].
  eapply cards_only_trans; [|apply cards_only_previous_loop].
  apply cards_only_alter.
Qed.

(** X8: a status update changes the stage cards and nothing else: the
    script state, the notifications, the requests, the interval and
    every other part of the page are as before, and no card appears
    or disappears. *)
Theorem updatePipelineUI_changes_cards_only (data : status_data) (w : world) :
  cards_only w (updatePipelineUI data w)
  /\ forall name,
       is_Some (cards (doc (updatePipelineUI data w)) !! name)
       <-> is_Some (cards (doc w) !! name).
Proof.
  split; [apply updatePipelineUI_cards_only|]. intros name.
  destruct (stage_id (current_stage data)) as [stageId|] eqn:Hid.
  - destruct (decide (stageId ∈ stages)) as [Hin|Hout].
    + apply list_elem_of_lookup in Hin as [i Hi].
      rewrite (updatePipelineUI_lookup data w i stageId name Hid Hi).
      repeat case_decide; by rewrite ?fmap_is_Some.
    + rewrite updatePipelineUI_skip; [done|].
      intros s. rewrite Hid. by intros [= <-].
  - rewrite updatePipelineUI_skip; [done|].
    intros s. by rewrite Hid.
Qed.

Lemma mark_twice (status : string) (c : card) :
  mark status (mark status c) = mark status c.
Proof.
  unfold mark. cbn. f_equal.
  - apply set_eq. intros x. set_unfold. intuition congruence.
  - apply set_eq. intros x. set_unfold. intuition congruence.
  - repeat case_match; apply set_eq; intros x; set_unfold; intuition congruence.
Qed.

Lemma mark_set_width (status width : string) (c : card) :
  mark status (set_width width c) = set_width width (mark status c).
Proof. done. Qed.

Lemma completed_card_twice (c : card) :
  completed_card (completed_card c) = completed_card c.
Proof.
  unfold completed_card. rewrite mark_set_width, mark_twice. done.
Qed.

Lemma running_card_twice (percent : Z) (c : card) :
  running_card percent (running_card percent c) = running_card percent c.
Proof.
  unfold running_card. rewrite mark_set_width, mark_twice. done.
Qed.

Lemma with_cards_over (m : gmap string card) (w w' : world) :
  cards_only w w' -> with_doc (set_cards m) w' = with_doc (set_cards m) w.
Proof. unfold cards_only. intros H. by rewrite H. Qed.

(** X9: a status update is idempotent: the poller applying the same
    reply a second time leaves the whole page exactly as the first
    application left it. *)
Theorem updatePipelineUI_idempotent (data : status_data) (w : world) :
  updatePipelineUI data (updatePipelineUI data w) = updatePipelineUI data w.
Proof.
  destruct (stage_id (current_stage data)) as [stageId|] eqn:Hid;
    [destruct (decide (stageId ∈ stages)) as [Hin|Hout]|].
  - apply list_elem_of_lookup in Hin as [i Hi].
    pose proof (updatePipelineUI_cards_only data (updatePipelineUI data w))
      as Htwice.
    pose proof (updatePipelineUI_cards_only data w) as Honce.
    etransitivity; [exact Htwice|]. etransitivity; [|symmetry; exact Honce].
    rewrite (with_cards_over _ _ _ Honce). do 2 f_equal.
    apply map_eq. intros name.
    rewrite !(updatePipelineUI_lookup data _ i stageId name Hid Hi).
    repeat case_decide;
      destruct (cards (doc w) !! name) as [c|]; cbn; try done;
      by rewrite ?running_card_twice, ?completed_card_twice.
  - rewrite !updatePipelineUI_skip; [done| |];
      intros s; rewrite Hid; by intros [= <-].
  - rewrite !updatePipelineUI_skip; [done| |]; intros s; by rewrite Hid.
Qed.

(** X10: the progress bar of the running stage is five times the
    remainder of the overall progress by twenty, as a percentage: for
    a progress that is not negative it lies between 0% and 95%, and at
    every multiple of twenty, 100 included, it shows 0%. *)
Theorem running_bar_never_full (data : status_data) (w : world) (i : nat)
    (stageId : string) (c : card) :
  stage_id (current_stage data) = Some stageId ->
  stages !! i = Some stageId ->
  cards (doc w) !! stageId = Some c ->
  (0 <= progress data)%Z ->
  exists c' percent,
    cards (doc (updatePipelineUI data w)) !! stageId = Some c'
    /\ progressWidth c' = pretty percent +:+ "%"
    /\ percent = (progress data mod 20 * 5)%Z
    /\ (0 <= percent <= 95)%Z
    /\ ((20 | progress data)%Z -> percent = 0%Z).
Proof.
  intros Hid Hi Hc Hpos.
  exists (running_card (Z.rem (progress data) 20 * 5) c),
         (Z.rem (progress data) 20 * 5)%Z.
  rewrite (updatePipelineUI_lookup data w i stageId stageId Hid Hi).
  rewrite decide_True by done. rewrite Hc.
  rewrite Z.rem_mod_nonneg by lia.
  split; [done|]. split; [done|]. split; [done|].
  pose proof (Z.mod_pos_bound (progress data) 20 ltac:(lia)).
  split; [lia|]. intros Hdiv.
  apply Z.mod_divide in Hdiv; lia.
Qed.

Lemma running_bar_never_full_witness :
  (stage_id (current_stage (report "insight" 100)) = Some "insight"
   /\ stages !! 5%nat = Some "insight"
   /\ cards (doc sample_world) !! "insight" = Some pending_card
   /\ (0 <= progress (report "insight" 100))%Z)
  /\ exists c' percent,
       cards (doc (updatePipelineUI (report "insight" 100) sample_world))
         !! "insight" = Some c'
       /\ progressWidth c' = pretty percent +:+ "%"
       /\ percent = (progress (report "insight" 100) mod 20 * 5)%Z
       /\ (0 <= percent <= 95)%Z
       /\ ((20 | progress (report "insight" 100))%Z -> percent = 0%Z).
Proof.
  split; [repeat split; by vm_compute|].
  apply (running_bar_never_full (report "insight" 100) sample_world 5 "insight"
           pending_card); by vm_compute.
Defined.

(** ** The interval callback at the end of a run *)

Lemma updatePipelineUI_as_cards (data : status_data) (w : world) :
  exists m, updatePipelineUI data w = with_doc (set_cards m) w.
Proof. eexists. apply updatePipelineUI_cards_only. Qed.

(** X11: on a status reply [completed], with the interval set, the
    callback clears the interval, clears the run flag, labels the run
    button 'Completed' without enabling it, and sends the results
    request after the status request; results that the reply carries
    are stored in any case. The notification 'Failed to fetch results'
    follows the success notice when the results request fails, and
    also when the results arrive but cannot be drawn because a channel
    lacks a numeric contribution or roi. *)
Theorem poll_tick_completed (data : status_data) (rr : reply results_response)
    (w : world) :
  pollInterval w = true ->
  status data = "completed" ->
  pollInterval (poll_tick (Resolved data) rr w) = false
  /\ pipelineRunning (state (poll_tick (Resolved data) rr w)) = false
  /\ runBtn_html (doc (poll_tick (Resolved data) rr w)) = "Completed"
  /\ runBtn_disabled (doc (poll_tick (Resolved data) rr w))
     = runBtn_disabled (doc w)
  /\ requests (poll_tick (Resolved data) rr w)
     = (requests w ++ [status_request (pipelineId (state w));
                       results_request (pipelineId (state w))])%list
  /\ results (state (poll_tick (Resolved data) rr w))
     = match rr with
       | Resolved {| res_results := Some res |} => Some res
       | _ => results (state w)
       end
  /\ notifications (poll_tick (Resolved data) rr w)
     = (notifications w
        ++ ("Pipeline completed successfully!", "success")
           :: match rr with
              | Rejected _ => [("Failed to fetch results", "error")]
              | Resolved {| res_results := Some res |} =>
                  if draws res then []
                  else [("Failed to fetch results", "error")]
              | Resolved {| res_results := None |} => []
              end)%list.
Proof.
  intros Hw Hs. unfold poll_tick. rewrite Hw, Hs. cbn [negb].
  match goal with
  | |- context [updatePipelineUI data ?v] =>
      destruct (updatePipelineUI_as_cards data v) as [m ->]
  end.
  change (String.eqb "completed" "completed") with true. cbv iota.
  unfold completePipeline_finish, showResults.
  destruct (checkpoint data) as [cp|];
    [destruct (cp_pending cp);
       [destruct (negb (is_active _ _));
          [unfold showCheckpointModal; destruct (cp_data cp)|]|]|];
    (destruct rr as [[[res|]]|msg]; cbn -[draws];
       [destruct (draws res); cbn| |]);
    rewrite <- ?app_assoc; done.
Qed.

Lemma poll_tick_completed_witness :
  (pollInterval sample_world = true
   /\ status {| status := "completed"; current_stage := Some "insight";
                progress := 100; checkpoint := None; error := "" |}
      = "completed")
  /\ notifications
       (poll_tick (Resolved {| status := "completed";
                               current_stage := Some "insight";
                               progress := 100; checkpoint := None;
                               error := "" |})
          (Resolved {| res_results := Some sample_results |}) sample_world)
     = (notifications sample_world
        ++ [("Pipeline completed successfully!", "success");
            ("Failed to fetch results", "error")])%list.
Proof.
  split; [split; reflexivity|].
  apply (poll_tick_completed
           {| status := "completed"; current_stage := Some "insight";
              progress := 100; checkpoint := None; error := "" |}
           (Resolved {| res_results := Some sample_results |}) sample_world);
    reflexivity.
Defined.

(** X12: on a status reply [failed] or [stopped], with the interval
    set, the callback clears the interval and the run flag, enables the
    run button again under the label 'Run Pipeline', sends nothing
    after the status request, stores no results, and shows one
    notification: the backend's error for [failed], 'Pipeline stopped
    by user' for [stopped]. *)
Theorem poll_tick_failed_or_stopped (data : status_data)
    (rr : reply results_response) (w : world) :
  pollInterval w = true ->
  status data = "failed" \/ status data = "stopped" ->
  pollInterval (poll_tick (Resolved data) rr w) = false
  /\ pipelineRunning (state (poll_tick (Resolved data) rr w)) = false
  /\ runBtn_disabled (doc (poll_tick (Resolved data) rr w)) = false
  /\ runBtn_html (doc (poll_tick (Resolved data) rr w)) = "Run Pipeline"
  /\ requests (poll_tick (Resolved data) rr w)
     = (requests w ++ [status_request (pipelineId (state w))])%list
  /\ results (state (poll_tick (Resolved data) rr w)) = results (state w)
  /\ notifications (poll_tick (Resolved data) rr w)
     = (notifications w
        ++ [if String.eqb (status data) "failed"
            then ("Pipeline failed: " +:+ error data, "error")
            else ("Pipeline stopped by user", "warning")])%list.
Proof.
  intros Hw Hs. unfold poll_tick. rewrite Hw. cbn [negb].
  match goal with
  | |- context [updatePipelineUI data ?v] =>
      destruct (updatePipelineUI_as_cards data v) as [m ->]
  end.
  destruct Hs as [-> | ->];
    [change (String.eqb "failed" "completed") with false;
     change (String.eqb "failed" "failed") with true
    |change (String.eqb "stopped" "completed") with false;
     change (String.eqb "stopped" "failed") with false;
     change (String.eqb "stopped" "stopped") with true];
    cbv iota;
    (destruct (checkpoint data) as [cp|];
       [destruct (cp_pending cp);
          [destruct (negb (is_active _ _));
             [unfold showCheckpointModal; destruct (cp_data cp)|]|]|]);
    done.
Qed.

Lemma poll_tick_failed_or_stopped_witness :
  (pollInterval sample_world = true
   /\ (status {| status := "stopped"; current_stage := Some "model";
                 progress := 60; checkpoint := None; error := "" |} = "failed"
       \/ status {| status := "stopped"; current_stage := Some "model";
                    progress := 60; checkpoint := None; error := "" |}
          = "stopped"))
  /\ runBtn_disabled
       (doc (poll_tick (Resolved {| status := "stopped";
                                    current_stage := Some "model";
                                    progress := 60; checkpoint := None;
                                    error := "" |})
               (Rejected "unused") sample_world)) = false.
Proof.
  split; [split; [reflexivity | right; reflexivity]|].
  apply (poll_tick_failed_or_stopped
           {| status := "stopped"; current_stage := Some "model";
              progress := 60; checkpoint := None; error := "" |}
           (Rejected "unused") sample_world);
    [reflexivity | right; reflexivity].
Defined.

(** ** The checkpoint modal *)

Lemma eqb_cases (s : string) (P : bool -> bool -> bool -> Prop) :
  P true false false -> P false true false -> P false false true ->
  P false false false ->
  P (String.eqb s "completed") (String.eqb s "failed") (String.eqb s "stopped").
Proof.
  intros H1 H2 H3 H4.
  destruct (String.eqb_spec s "completed") as [->|]; [done|].
  destruct (String.eqb_spec s "failed") as [->|]; [done|].
  destruct (String.eqb_spec s "stopped") as [->|]; done.
Qed.

(** What a status reply carrying a pending checkpoint does to the
    modal, whatever its status. *)
Lemma poll_tick_checkpoint (data : status_data) (cp : checkpoint_info)
    (rr : reply results_response) (w : world) (cl : gset string) :
  pollInterval w = true ->
  checkpoint data = Some cp ->
  cp_pending cp = true ->
  modals (doc w) !! "checkpointModal" = Some cl ->
  is_active "checkpointModal" (poll_tick (Resolved data) rr w) = true
  /\ ("active" ∉ cl ->
      checkpointTitle (doc (poll_tick (Resolved data) rr w))
      = "Checkpoint: " +:+ toUpperCase (cp_stage cp)
      /\ checkpointDescription (doc (poll_tick (Resolved data) rr w))
         = (if truthy (cp_message cp) then show (cp_message cp)
            else "Review required")
      /\ checkpointData_display (doc (poll_tick (Resolved data) rr w))
         = match cp_data cp with Some _ => "block" | None => "none" end)
  /\ ("active" ∈ cl ->
      checkpointTitle (doc (poll_tick (Resolved data) rr w))
      = checkpointTitle (doc w)
      /\ checkpointDescription (doc (poll_tick (Resolved data) rr w))
         = checkpointDescription (doc w)
      /\ checkpointData_html (doc (poll_tick (Resolved data) rr w))
         = checkpointData_html (doc w)
      /\ checkpointData_display (doc (poll_tick (Resolved data) rr w))
         = checkpointData_display (doc w)).
Proof.
  intros Hw Hcp Hpending Hmodal. unfold poll_tick. rewrite Hw, Hcp, Hpending.
  cbn [negb].
  match goal with
  | |- context [updatePipelineUI data ?v] =>
      destruct (updatePipelineUI_as_cards data v) as [m ->]
  end.
  pattern (String.eqb (status data) "completed"),
          (String.eqb (status data) "failed"),
          (String.eqb (status data) "stopped").
  apply eqb_cases; cbv iota; unfold is_active; cbn; rewrite Hmodal;
    (destruct (decide ("active" ∈ cl)) as [Hin|Hout];
       [rewrite (bool_decide_eq_true_2 _ Hin)
       |rewrite (bool_decide_eq_false_2 _ Hout)]);
    cbn [negb]; unfold showCheckpointModal;
    unfold completePipeline_finish, showResults;
    destruct (cp_data cp);
    (destruct rr as [[[res|]]|msg]; cbn -[draws];
       [destruct (draws res)| |]); cbn;
    rewrite ?lookup_alter_eq, ?Hmodal; cbn;
    (split; [apply bool_decide_eq_true_2; set_unfold; tauto|]);
    split; done.
Qed.

(** X13: a status reply that carries a pending checkpoint leaves the
    checkpoint modal open, whatever the status; if the modal was
    closed it now shows the upper-cased stage as title and the
    backend's message, or 'Review required' when there is none; if it
    was already open its content is left as it was. *)
Theorem pending_checkpoint_opens_modal (data : status_data) (cp : checkpoint_info)
    (rr : reply results_response) (w : world) (cl : gset string) :
  pollInterval w = true ->
  checkpoint data = Some cp ->
  cp_pending cp = true ->
  modals (doc w) !! "checkpointModal" = Some cl ->
  is_active "checkpointModal" (poll_tick (Resolved data) rr w) = true
  /\ ("active" ∉ cl ->
      checkpointTitle (doc (poll_tick (Resolved data) rr w))
      = "Checkpoint: " +:+ toUpperCase (cp_stage cp)
      /\ checkpointDescription (doc (poll_tick (Resolved data) rr w))
         = (if truthy (cp_message cp) then show (cp_message cp)
            else "Review required")
      /\ checkpointData_display (doc (poll_tick (Resolved data) rr w))
         = match cp_data cp with Some _ => "block" | None => "none" end)
  /\ ("active" ∈ cl ->
      checkpointTitle (doc (poll_tick (Resolved data) rr w))
      = checkpointTitle (doc w)
      /\ checkpointDescription (doc (poll_tick (Resolved data) rr w))
         = checkpointDescription (doc w)
      /\ checkpointData_html (doc (poll_tick (Resolved data) rr w))
         = checkpointData_html (doc w)
      /\ checkpointData_display (doc (poll_tick (Resolved data) rr w))
         = checkpointData_display (doc w)).
Proof. apply poll_tick_checkpoint. Qed.

Lemma pending_checkpoint_opens_modal_witness :
  (pollInterval sample_world = true
   /\ checkpoint sample_checkpoint_reply = Some sample_pending
   /\ cp_pending sample_pending = true
   /\ modals (doc sample_world) !! "checkpointModal" = Some {["modal"]})
  /\ is_active "checkpointModal"
       (poll_tick (Resolved sample_checkpoint_reply) (Rejected "unused")
          sample_world) = true.
Proof.
  split; [repeat split; by vm_compute|].
  apply (pending_checkpoint_opens_modal sample_checkpoint_reply sample_pending
           (Rejected "unused") sample_world {["modal"]}); by vm_compute.
Defined.

Lemma handleCheckpointDecision_modal (approved : bool)
    (answer : reply decision_response) (w : world) (cl : gset string) :
  modals (doc w) !! "checkpointModal" = Some cl ->
  modals (doc (handleCheckpointDecision approved answer w)) !! "checkpointModal"
  = Some (cl ∖ {["active"]}).
Proof.
  intros Hmodal. unfold handleCheckpointDecision.
  destruct answer as [data|msg]; [destruct (dec_success data)|]; cbn;
    by rewrite lookup_alter_eq, Hmodal.
Qed.

(** X14: a decision closes the checkpoint modal, sends exactly the
    decision request and leaves the interval as it was; the decision is
    not remembered by the script, so the next status reply that still
    reports the checkpoint as pending opens the modal again. *)
Theorem decision_closes_modal_until_next_reply (approved : bool)
    (answer : reply decision_response) (data : status_data)
    (cp : checkpoint_info) (rr : reply results_response)
    (w : world) (cl : gset string) :
  pollInterval w = true ->
  modals (doc w) !! "checkpointModal" = Some cl ->
  checkpoint data = Some cp ->
  cp_pending cp = true ->
  is_active "checkpointModal" (handleCheckpointDecision approved answer w) = false
  /\ requests (handleCheckpointDecision approved answer w)
     = (requests w ++ [decision_request (pipelineId (state w)) approved])%list
  /\ pollInterval (handleCheckpointDecision approved answer w) = true
  /\ state (handleCheckpointDecision approved answer w) = state w
  /\ is_active "checkpointModal"
       (poll_tick (Resolved data) rr
          (handleCheckpointDecision approved answer w)) = true.
Proof.
  intros Hw Hmodal Hcp Hpending.
  pose proof (handleCheckpointDecision_modal approved answer w cl Hmodal) as Hclosed.
  assert (pollInterval (handleCheckpointDecision approved answer w) = true) as Hon.
  { unfold handleCheckpointDecision.
    destruct answer as [d|msg]; [destruct (dec_success d)|]; done. }
  split; [|split; [|split; [done|split]]].
  - unfold is_active. rewrite Hclosed.
    apply bool_decide_eq_false_2. set_unfold. tauto.
  - unfold handleCheckpointDecision.
    destruct answer as [d|msg]; [destruct (dec_success d)|]; done.
  - unfold handleCheckpointDecision.
    destruct answer as [d|msg]; [destruct (dec_success d)|]; done.
  - by destruct (poll_tick_checkpoint data cp rr _ _ Hon Hcp Hpending Hclosed).
Qed.

Lemma decision_closes_modal_until_next_reply_witness :
  (pollInterval sample_world = true
   /\ modals (doc sample_world) !! "checkpointModal" = Some {["modal"]}
   /\ checkpoint sample_checkpoint_reply = Some sample_pending
   /\ cp_pending sample_pending = true)
  /\ is_active "checkpointModal"
       (handleCheckpointDecision true
          (Resolved {| dec_success := true; dec_error := "" |}) sample_world)
     = false.
Proof.
  split; [repeat split; by vm_compute|].
  apply (decision_closes_modal_until_next_reply true
           (Resolved {| dec_success := true; dec_error := "" |})
           sample_checkpoint_reply sample_pending (Rejected "unused")
           sample_world {["modal"]}); by vm_compute.
Defined.

(** ** File upload, continued *)

(** X15: an upload that the backend accepts stores the file id of the
    reply, enables the run button and closes the upload modal; an
    upload that fails, by a reply without success or by a network
    error, leaves the script state and the page exactly as they were
    and ends with an error notification. *)
Theorem uploadFile_outcomes (f : File) (r : reply upload_response) (w : world) :
  (forall data, r = Resolved data -> up_success data = true ->
     fileId (state (uploadFile f r w)) = up_file_id data
     /\ runBtn_disabled (doc (uploadFile f r w)) = false
     /\ is_active "uploadModal" (uploadFile f r w) = false)
  /\ ((forall data, r = Resolved data -> up_success data = false) ->
      state (uploadFile f r w) = state w
      /\ doc (uploadFile f r w) = doc w
      /\ exists message,
           notifications (uploadFile f r w)
           = (notifications w
              ++ [("Uploading " +:+ file_name f +:+ "...", "info");
                  (message, "error")])%list).
Proof.
  split.
  - intros data -> Hok. unfold uploadFile. rewrite Hok.
    split; [done|]. split; [done|].
    unfold is_active. cbn. rewrite lookup_alter_eq.
    destruct (modals (doc w) !! "uploadModal") as [cl|]; [|done].
    cbn. apply bool_decide_eq_false_2. set_unfold. tauto.
  - intros Hfail. unfold uploadFile. destruct r as [data|msg].
    + rewrite (Hfail data eq_refl). cbn. rewrite <- app_assoc.
      repeat (split; [done|]). by eexists.
    + cbn. rewrite <- app_assoc. repeat (split; [done|]). by eexists.
Qed.

(** X16: the check of the file name guards the drop only: a file whose
    name does not end with ".csv" is refused when dropped but uploaded
    when chosen through the file input. *)
Theorem csv_check_guards_drop_only (f : File) (r : reply upload_response)
    (w : world) :
  ~ ends_with (file_name f) ".csv" ->
  requests (handleDrop (Some f) r w) = requests w
  /\ requests (handleFileUpload (Some f) r w)
     = (requests w ++ [upload_request f])%list.
Proof.
  intros Hno. split; [|apply uploadFile_requests].
  unfold handleDrop.
  destruct (endsWith (file_name f) ".csv") eqn:Hends; [|done].
  by apply endsWith_spec in Hends.
Qed.

Lemma csv_check_guards_drop_only_witness :
  ~ ends_with (file_name {| file_name := "sales.xlsx"; file_data := "" |}) ".csv"
  /\ requests (handleDrop (Some {| file_name := "sales.xlsx"; file_data := "" |})
                 (Rejected "unused") sample_world) = requests sample_world
  /\ requests (handleFileUpload
                 (Some {| file_name := "sales.xlsx"; file_data := "" |})
                 (Rejected "unused") sample_world)
     = (requests sample_world
        ++ [upload_request {| file_name := "sales.xlsx"; file_data := "" |}])%list.
Proof.
  assert (~ ends_with (file_name {| file_name := "sales.xlsx"; file_data := "" |})
            ".csv") as Hno.
  { intros H%endsWith_spec. discriminate H. }
  split; [exact Hno|].
  apply (csv_check_guards_drop_only
           {| file_name := "sales.xlsx"; file_data := "" |}
           (Rejected "unused") sample_world Hno).
Defined.

(** X17: upload then run: after an accepted upload that carries a file
    id, [startPipeline] sends the run request with exactly that file id
    and the configuration of the script, right after the upload
    request. *)
Theorem upload_then_run (f : File) (data : upload_response)
    (r : reply run_response) (w : world) :
  up_success data = true ->
  truthy (up_file_id data) = true ->
  requests (startPipeline r (uploadFile f (Resolved data) w))
  = (requests w
     ++ [upload_request f;
         {| req_method := "POST";
            req_url := "http://localhost:8080/api/pipeline/run";
            req_body := RunBody (up_file_id data) (autoApprove (state w)) |}])%list.
Proof.
  intros Hok Hid.
  rewrite startPipeline_requests.
  - rewrite uploadFile_requests, <- app_assoc.
    unfold uploadFile. by rewrite Hok.
  - unfold uploadFile. by rewrite Hok.
Qed.

Lemma upload_then_run_witness :
  (up_success {| up_success := true; up_file_id := Some "f-2";
                 up_filename := "sales.csv"; up_error := "" |} = true
   /\ truthy (up_file_id {| up_success := true; up_file_id := Some "f-2";
                            up_filename := "sales.csv"; up_error := "" |}) = true)
  /\ requests
       (startPipeline (Rejected "unused")
          (uploadFile {| file_name := "sales.csv"; file_data := "" |}
             (Resolved {| up_success := true; up_file_id := Some "f-2";
                          up_filename := "sales.csv"; up_error := "" |})
             sample_world))
     = (requests sample_world
        ++ [upload_request {| file_name := "sales.csv"; file_data := "" |};
            {| req_method := "POST";
               req_url := "http://localhost:8080/api/pipeline/run";
               req_body := RunBody (Some "f-2") (autoApprove (state sample_world)) |}])%list.
Proof.
  split; [split; reflexivity|].
  apply (upload_then_run {| file_name := "sales.csv"; file_data := "" |}
           {| up_success := true; up_file_id := Some "f-2";
              up_filename := "sales.csv"; up_error := "" |}
           (Rejected "unused") sample_world); reflexivity.
Defined.

(** ** The response curve chart *)

Section Chart.

#[local] Open Scope R_scope.

Lemma rpow_scale (k x e : R) :
  0 < k -> 0 <= x -> rpow (k * x) e = Rpower k e * rpow x e.
Proof.
  intros Hk Hx. unfold rpow. destruct (decide (x = 0)) as [->|Hx0].
  - rewrite decide_True by lra. lra.
  - rewrite decide_False by nra. symmetry. apply Rpower_mult_distr; lra.
Qed.

Lemma hillFunction_scale (k x gamma alpha : R) :
  0 < k -> 0 <= x -> 0 < gamma -> 0 < alpha ->
  hillFunction (k * x) (k * gamma) alpha = hillFunction x gamma alpha.
Proof.
  intros Hk Hx Hg Ha.
  rewrite !hillFunction_value by nra.
  rewrite rpow_scale by lra.
  rewrite <- (Rpower_mult_distr k gamma alpha) by lra.
  pose proof (rpow_nonneg x alpha).
  assert (0 < Rpower k alpha) by apply exp_pos.
  assert (0 < Rpower gamma alpha) by apply exp_pos.
  assert (0 < Rpower k alpha * Rpower gamma alpha)
    by (apply Rmult_lt_0_compat; lra).
  assert (0 <= Rpower k alpha * rpow x alpha)
    by (apply Rmult_le_pos; lra).
  do 2 f_equal. field. split; lra.
Qed.

Lemma curve_response (optimized : R) (i : nat) :
  0 < optimized ->
  hillFunction (INR i / 50 * optimized * 2) optimized (1 / 2)
  = hillFunction (INR i / 25) 1 (1 / 2).
Proof.
  intros Ho.
  replace (INR i / 50 * optimized * 2) with (optimized * (INR i / 25)) by field.
  rewrite <- (Rmult_1_r optimized) at 2.
  apply hillFunction_scale; try lra.
  pose proof (pos_INR i). apply Rmult_le_pos; lra.
Qed.

Lemma normal_range_positive (a : R) : 1 / 10 ^ 300 <= a -> 0 < a.
Proof.
  intros Ha. assert (0 < 10 ^ 300) as Hp by (apply pow_lt; lra).
  assert (0 < 1 / 10 ^ 300) by (apply Rdiv_lt_0_compat; lra). lra.
Qed.

(** The points of a curve on an integer canvas, for a positive
    optimized spend. *)
Lemma curve_point_value (width height : Z) (optimized : R) (i : nat) :
  (80 <= width)%Z -> (80 <= height)%Z -> 0 < optimized -> (i <= 50)%nat ->
  exists x y,
    curve_point (IZR width) (IZR height) optimized i
    = Return (Finite x, Finite y)
    /\ curve_point (IZR width) (IZR height) 1 i
       = Return (Finite x, Finite y)
    /\ 40 <= x <= IZR width - 40
    /\ IZR height - 40 - (IZR height - 80) / 2 <= y <= IZR height - 40.
Proof.
  intros Hw Hh Ho Hi. apply IZR_le in Hw, Hh. unfold curve_point.
  assert (0 <= INR i <= 50) as Hir.
  { split; [apply pos_INR|]. replace 50 with (INR 50) by (simpl; lra).
    by apply le_INR. }
  rewrite (curve_response optimized i Ho), (curve_response 1 i) by lra.
  assert (0 <= INR i / 25) as Hspend by lra.
  rewrite hillFunction_value by lra.
  set (p := rpow _ _). set (G := Rpower _ _).
  assert (0 <= 100 * p / (G + p) < 100) as Hr
    by (apply ratio_bounds; [apply exp_pos | apply rpow_nonneg]).
  cbn [div mul sub add neg]. rewrite decide_False by lra.
  eexists _, _. split; [reflexivity|]. split; [reflexivity|]. split.
  - split; nra.
  - set (r := 100 * p / (G + p)) in *. nra.
Qed.

(** X19: on a canvas of a size a browser allows, the response chart
    draws the same curve for every channel whose optimized spend is in
    the normal range: the points of two channels have the same
    abscissa and ordinates that agree within a millionth of a pixel,
    the allowance for rounding. *)
Theorem chart_curve_same_for_every_channel (width height : Z) (a b : R)
    (i : nat) :
  (80 <= width <= 32767)%Z -> (80 <= height <= 32767)%Z ->
  1 / 10 ^ 300 <= a <= 10 ^ 300 -> 1 / 10 ^ 300 <= b <= 10 ^ 300 ->
  (i <= 50)%nat ->
  exists x ya yb,
    curve_point (IZR width) (IZR height) a i = Return (Finite x, Finite ya)
    /\ curve_point (IZR width) (IZR height) b i = Return (Finite x, Finite yb)
    /\ Rabs (ya - yb) <= 1 / 1000000.
Proof.
  intros [Hw _] [Hh _] [Ha _] [Hb _] Hi.
  apply normal_range_positive in Ha, Hb.
  destruct (curve_point_value width height a i Hw Hh Ha Hi)
    as (x & y & Hpa & Hone & _).
  destruct (curve_point_value width height b i Hw Hh Hb Hi)
    as (x' & y' & Hpb & Hone' & _).
  rewrite Hone in Hone'. injection Hone' as <- <-.
  exists x, y, y. split; [done|]. split; [done|].
  replace (y - y) with 0 by ring. rewrite Rabs_R0. lra.
Qed.

Lemma chart_curve_same_for_every_channel_witness :
  ((80 <= 600 <= 32767)%Z /\ (80 <= 300 <= 32767)%Z
   /\ 1 / 10 ^ 300 <= 120000 <= 10 ^ 300 /\ 1 / 10 ^ 300 <= 350 <= 10 ^ 300
   /\ (10 <= 50)%nat)
  /\ exists x ya yb,
       curve_point (IZR 600) (IZR 300) 120000 10 = Return (Finite x, Finite ya)
       /\ curve_point (IZR 600) (IZR 300) 350 10 = Return (Finite x, Finite yb)
       /\ Rabs (ya - yb) <= 1 / 1000000.
Proof.
  assert (forall v, 1 <= v <= 1000000 -> 1 / 10 ^ 300 <= v <= 10 ^ 300) as Hrange.
  { intros v Hv. assert (1 <= 10 ^ 300) as Hp by (apply pow_R1_Rle; lra).
    split; [|lra].
    apply Rle_trans with 1; [|lra].
    apply Rmult_le_reg_r with (10 ^ 300); [lra|].
    unfold Rdiv. rewrite Rmult_assoc, Rinv_l by lra. lra. }
  split.
  - split; [lia|]. split; [lia|].
    split; [apply Hrange; lra|]. split; [apply Hrange; lra | lia].
  - apply (chart_curve_same_for_every_channel 600 300 120000 350 10);
      try lia; apply Hrange; lra.
Defined.

(** X20: on a canvas of a size a browser allows, for a channel whose
    optimized spend is positive and at most [1e300], each of the 51
    points of its curve is finite, lies between the left and right
    padding, and lies in the lower half of the plot area: the curve
    never rises above the middle of the chart. *)
Theorem chart_curve_in_lower_half (width height : Z) (optimized : R) (i : nat) :
  (80 <= width <= 32767)%Z -> (80 <= height <= 32767)%Z ->
  0 < optimized <= 10 ^ 300 -> (i <= 50)%nat ->
  exists x y,
    curve_point (IZR width) (IZR height) optimized i
    = Return (Finite x, Finite y)
    /\ 40 <= x <= IZR width - 40
    /\ IZR height - 40 - (IZR height - 80) / 2 <= y <= IZR height - 40.
Proof.
  intros [Hw _] [Hh _] [Ho _] Hi.
  destruct (curve_point_value width height optimized i Hw Hh Ho Hi)
    as (x & y & Hp & _ & Hx & Hy).
  by exists x, y.
Qed.

Lemma chart_curve_in_lower_half_witness :
  ((80 <= 600 <= 32767)%Z /\ (80 <= 300 <= 32767)%Z
   /\ 0 < 120000 <= 10 ^ 300 /\ (25 <= 50)%nat)
  /\ exists x y,
       curve_point (IZR 600) (IZR 300) 120000 25 = Return (Finite x, Finite y)
       /\ 40 <= x <= IZR 600 - 40
       /\ IZR 300 - 40 - (IZR 300 - 80) / 2 <= y <= IZR 300 - 40.
Proof.
  assert (0 < 120000 <= 10 ^ 300) as Hrange.
  { assert (1 <= 10 ^ 294) as Hp by (apply pow_R1_Rle; lra).
    replace (10 ^ 300) with (1000000 * 10 ^ 294)
      by (change 300%nat with (6 + 294)%nat; rewrite pow_add; f_equal; lra).
    split; nra. }
  split; [split; [lia|]; split; [lia|]; split; [exact Hrange | lia]|].
  apply (chart_curve_in_lower_half 600 300 120000 25); (lia || exact Hrange).
Defined.

(** X21: for a channel whose optimized spend is zero or negative every
    point of the curve has the coordinate [NaN]: the chart has nothing
    to draw for it. *)
Theorem chart_curve_degenerate (width height optimized : R) (i : nat) :
  optimized <= 0 ->
  exists x, curve_point width height optimized i = Return (Finite x, NaN).
Proof.
  intros Ho. unfold curve_point, hillFunction. eexists.
  destruct (decide (optimized = 0)) as [->|Hne].
  - replace (INR i / 50 * 0 * 2) with 0 by lra.
    rewrite (Math_pow_nonneg 0 (1 / 2)) by lra.
    unfold rpow. rewrite decide_True by done.
    cbn [mul add div]. replace (100 * 0) with 0 by lra. replace (0 + 0) with 0 by lra.
    rewrite !decide_True by done. reflexivity.
  - assert (Math_pow optimized (1 / 2) = NaN) as ->.
    { unfold Math_pow. rewrite !decide_False; [done| | | |]; try lra.
      assert (Int_part (1 / 2) = 0%Z) as ->.
      { symmetry. apply Int_part_spec. simpl. lra. }
      simpl. lra. }
    cbn [add]. destruct (mul (Finite 100) _); reflexivity.
Qed.

Lemma chart_curve_degenerate_witness :
  0 <= 0 /\ exists x, curve_point 600 300 0 10 = Return (Finite x, NaN).
Proof.
  split; [lra|]. apply (chart_curve_degenerate 600 300 0 10). lra.
Defined.

End Chart.

(** ** The React view, continued *)

Section ReactView.

Import DataStudio.

Lemma tick_continues (pid : string) (r : reply status_body) (c : component) :
  interval c = true -> react_keeps_polling r ->
  tick pid r c = send (status_url pid) c.
Proof.
  intros Hon (data & -> & Hnc & Hnf). unfold tick. rewrite Hon. cbn [negb].
  by rewrite !eqb_status_false.
Qed.

Lemma ticks_continue (pid : string) (replies : list (reply status_body))
    (c : component) :
  interval c = true -> Forall react_keeps_polling replies ->
  interval (ticks pid replies c) = true
  /\ running (ticks pid replies c) = running c
  /\ error (ticks pid replies c) = error c
  /\ alerts (ticks pid replies c) = alerts c
  /\ navigated (ticks pid replies c) = navigated c
  /\ sent (ticks pid replies c)
     = (sent c ++ replicate (length replies) (status_url pid))%list.
Proof.
  intros Hon Hall. revert c Hon.
  induction Hall as [|r replies Hr _ IH]; intros c Hon.
  - cbn. by rewrite app_nil_r.
  - change (ticks pid (r :: replies) c) with (ticks pid replies (tick pid r c)).
    rewrite (tick_continues pid r c Hon Hr).
    destruct (IH (send (status_url pid) c) Hon) as (-> & -> & -> & -> & -> & ->).
    cbn. by rewrite <- app_assoc.
Qed.

(** X23: the React view keeps polling on every status other than
    [completed] and [failed], [stopped] included: the interval stays
    set, the run flag, the error, the alerts and the navigation are
    untouched, and one status request is sent per firing, however many
    firings there are. *)
Theorem react_poll_continues (pid : string) (replies : list (reply status_body))
    (c : component) :
  interval c = true -> Forall react_keeps_polling replies ->
  interval (ticks pid replies c) = true
  /\ running (ticks pid replies c) = running c
  /\ error (ticks pid replies c) = error c
  /\ alerts (ticks pid replies c) = alerts c
  /\ navigated (ticks pid replies c) = navigated c
  /\ sent (ticks pid replies c)
     = (sent c ++ replicate (length replies) (status_url pid))%list.
Proof. apply ticks_continue. Qed.

Lemma stopped_replies_keep_polling :
  Forall react_keeps_polling
    [Resolved {| data_status := "stopped"; data_error := "" |};
     Resolved {| data_status := "stopped"; data_error := "" |}].
Proof. repeat constructor; eexists; (split; [reflexivity|]); split; discriminate. Qed.

Lemma react_poll_continues_witness :
  (interval (pollStatus "p-1" sample_component) = true
   /\ Forall react_keeps_polling
        [Resolved {| data_status := "stopped"; data_error := "" |};
         Resolved {| data_status := "stopped"; data_error := "" |}])
  /\ interval
       (ticks "p-1"
          [Resolved {| data_status := "stopped"; data_error := "" |};
           Resolved {| data_status := "stopped"; data_error := "" |}]
          (pollStatus "p-1" sample_component)) = true.
Proof.
  split; [split; [reflexivity | apply stopped_replies_keep_polling]|].
  apply (react_poll_continues "p-1" _ (pollStatus "p-1" sample_component));
    [reflexivity | apply stopped_replies_keep_polling].
Defined.

(** X24: when a status reply [completed] arrives while the interval is
    set, the React view clears the interval and the run flag, raises
    its one alert and navigates to the dashboard once; later firings
    add no request, no alert and no navigation. *)
Theorem react_poll_completes_once (pid : string)
    (before after : list (reply status_body)) (data : status_body)
    (c : component) :
  interval (ticks pid before c) = true ->
  data_status data = "completed" ->
  interval (ticks pid (before ++ Resolved data :: after) c) = false
  /\ running (ticks pid (before ++ Resolved data :: after) c) = false
  /\ alerts (ticks pid (before ++ Resolved data :: after) c)
     = (alerts (ticks pid before c)
        ++ ["Model run completed successfully! Check the Dashboard."])%list
  /\ navigated (ticks pid (before ++ Resolved data :: after) c)
     = (navigated (ticks pid before c) ++ ["/"])%list
  /\ sent (ticks pid (before ++ Resolved data :: after) c)
     = (sent (ticks pid before c) ++ [status_url pid])%list
  /\ error (ticks pid (before ++ Resolved data :: after) c)
     = error (ticks pid before c).
Proof.
  intros Hon Hs.
  assert (ticks pid (before ++ Resolved data :: after) c
          = tick pid (Resolved data) (ticks pid before c)) as ->.
  { rewrite ticks_app.
    change (ticks pid (Resolved data :: after) ?d)
      with (ticks pid after (tick pid (Resolved data) d)).
    apply ticks_cleared. unfold tick. by rewrite Hon, Hs. }
  unfold tick. by rewrite Hon, Hs.
Qed.

Lemma react_poll_completes_once_witness :
  (interval (ticks "p-1" [] (pollStatus "p-1" sample_component)) = true
   /\ data_status {| data_status := "completed"; data_error := "" |} = "completed")
  /\ interval
       (ticks "p-1"
          ([] ++ Resolved {| data_status := "completed"; data_error := "" |}
              :: [Resolved {| data_status := "completed"; data_error := "" |}])
          (pollStatus "p-1" sample_component)) = false.
Proof.
  split; [split; reflexivity|].
  apply (react_poll_completes_once "p-1" []
           [Resolved {| data_status := "completed"; data_error := "" |}]
           {| data_status := "completed"; data_error := "" |}
           (pollStatus "p-1" sample_component)); reflexivity.
Defined.

End ReactView.

Section ReactRun.

Import DataStudio DataStudioView.



(** X26: in the React view a failed upload sets the status 'error',
    under which neither the file input with its upload button nor the
    run section is rendered, only the error line; a successful upload
    whose reply carries a file id stores it and renders the run
    section and the first eight characters of the id in place of the
    upload controls; a successful upload whose reply carries no file id
    makes the next render throw a [TypeError]. With no file chosen
    [handleUpload] does nothing. *)
Theorem react_upload_outcomes (r : reply upload_body) (c : component) :
  (file c = None -> handleUpload r c = c)
  /\ (is_Some (file c) ->
      sent (handleUpload r c)
      = (sent c ++ ["http://localhost:8080/api/upload"])%list
      /\ uploading (handleUpload r c) = false
      /\ (forall message, r = Rejected message ->
            fileId (handleUpload r c) = fileId c
            /\ exists v,
                 render (handleUpload r c) = Return v
                 /\ upload_controls v = false
                 /\ run_section v = false
                 /\ ready_line v = None
                 /\ error_line v = Some ("Upload failed: " +:+ message))
      /\ (forall data id, r = Resolved data -> data_file_id data = Some id ->
            fileId (handleUpload r c) = Some id
            /\ exists v,
                 render (handleUpload r c) = Return v
                 /\ upload_controls v = false
                 /\ run_section v = true
                 /\ ready_line v
                    = Some ("Ready for modeling. ID: "
                            +:+ String.substring 0 8 id +:+ "..."))
      /\ (forall data, r = Resolved data -> data_file_id data = None ->
            render (handleUpload r c) = Throw "TypeError")).
Proof.
  split.
  - intros Hnone. unfold handleUpload. by rewrite Hnone.
  - intros [f Hf]. unfold handleUpload. rewrite Hf.
    destruct r as [data|msg]; (split; [done|]); (split; [done|]);
      (split; [|split]).
    + intros ? [=].
    + intros ? id [= <-] Hid. unfold render. cbn. rewrite Hid.
      split; [done|]. by eexists.
    + intros ? [= <-] Hid. unfold render. cbn. by rewrite Hid.
    + intros ? [= <-]. split; [done|]. unfold render. cbn. by eexists.
    + intros ? ? [=].
    + intros ? [=].
Qed.

End ReactRun.

(** ** The bar chart *)

Section BarChart.

#[local] Open Scope R_scope.

Lemma max_upper_bound (v0 : R) (rest : list R) (x : R) :
  x ∈ v0 :: rest -> x <= foldr Rmax v0 rest.
Proof.
  induction rest as [|v rest IH]; intros Hin.
  - apply list_elem_of_singleton in Hin as ->. simpl. lra.
  - simpl. apply elem_of_cons in Hin as [->|Hin].
    + eapply Rle_trans; [|apply Rmax_r]. apply IH. apply list_elem_of_here.
    + apply elem_of_cons in Hin as [->|Hin]; [apply Rmax_l|].
      eapply Rle_trans; [|apply Rmax_r]. apply IH. by apply list_elem_of_further.
Qed.

(** X27: on a canvas of a size a browser allows, when no value is
    negative, every bar of the bar chart is a finite rectangle: its
    left edge is at 50 or to the right of it, its width is between
    -20 and the chart width less 20, its height is between 0 and the
    chart height and its top is between the top and the bottom
    padding. A
    largest value of zero does not divide by zero: all bars then have
    height 0. *)
Theorem bars_fit_plot_area (width height : Z) (n : nat) (values : list R)
    (i : nat) (value : R) :
  (80 <= width <= 32767)%Z -> (80 <= height <= 32767)%Z ->
  (i < n)%nat ->
  values !! i = Some value ->
  Forall (fun v => 0 <= v) values ->
  exists x y w h,
    bar_rect (IZR width) (IZR height) n values i value
    = {| rect_x := Finite x; rect_y := Finite y;
         rect_w := Finite w; rect_h := Finite h |}
    /\ 50 <= x
    /\ - 20 <= w <= IZR width - 100
    /\ 0 <= h <= IZR height - 80
    /\ 40 <= y <= IZR height - 40
    /\ (Forall (fun v => v = 0) values -> h = 0).
Proof.
  intros [Hw _] [Hh _] Hin Hi Hpos. apply IZR_le in Hw, Hh.
  assert (1 <= INR n) as Hn1.
  { replace 1 with (INR 1) by done. apply le_INR. lia. }
  assert (0 < INR n) as Hn by lra.
  pose proof (pos_INR i) as Hipos.
  assert (0 <= (IZR width - 40 * 2) / INR n <= IZR width - 40 * 2) as Hshare.
  { split.
    - apply Rmult_le_pos; [lra|]. apply Rlt_le, Rinv_0_lt_compat. done.
    - apply Rmult_le_reg_r with (INR n); [done|].
      unfold Rdiv. rewrite Rmult_assoc, Rinv_l by lra. nra. }
  destruct values as [|v0 rest]; [done|].
  assert (value ∈ v0 :: rest) as Hel by by eapply list_elem_of_lookup_2.
  pose proof (max_upper_bound v0 rest value Hel) as Hmax.
  assert (0 <= value) as Hv.
  { by apply (proj1 (Forall_forall _ _) Hpos). }
  assert (0 <= (IZR width - 40 * 2) / INR n * INR i) as Hoff.
  { apply Rmult_le_pos; [|done]. apply Rmult_le_pos; [lra|].
    apply Rlt_le, Rinv_0_lt_compat. done. }
  unfold bar_rect, bar_maxValue.
  set (m := foldr Rmax v0 rest) in *.
  destruct (decide (m = 0)) as [Hm0|Hm0].
  - assert (value = 0) as -> by lra.
    cbn [div mul sub add neg]. rewrite !decide_False by lra.
    eexists _, _, _, _. split; [reflexivity|].
    split; [lra|]. split; [lra|]. split; [lra|]. split; [lra|].
    intros _. lra.
  - cbn [div mul sub add neg]. rewrite !decide_False by (done || lra).
    eexists _, _, _, _. split; [reflexivity|].
    split; [lra|]. split; [lra|].
    assert (0 < m) as Hmpos by lra.
    assert (0 <= value / m <= 1) as Hratio.
    { split.
      - apply Rmult_le_pos; [lra|]. apply Rlt_le, Rinv_0_lt_compat. lra.
      - apply Rmult_le_reg_r with m; [lra|].
        unfold Rdiv. rewrite Rmult_assoc, Rinv_l by lra. lra. }
    set (q := value / m) in *.
    split; [nra|]. split; [nra|].
    intros Hzero. exfalso. apply Hm0.
    assert (forall x, x ∈ v0 :: rest -> x = 0) as Hall
      by by apply Forall_forall.
    clear -Hall. subst m.
    induction rest as [|v rest IH]; simpl.
    + apply Hall, list_elem_of_here.
    + rewrite IH.
      * rewrite (Hall v) by (apply list_elem_of_further, list_elem_of_here).
        apply Rmax_left. lra.
      * intros x Hx. apply Hall.
        apply elem_of_cons in Hx as [->|Hx]; [apply list_elem_of_here|].
        by do 2 apply list_elem_of_further.
Qed.

Lemma bars_fit_plot_area_witness :
  ((80 <= 600 <= 32767)%Z /\ (80 <= 300 <= 32767)%Z /\ (1 < 3)%nat
   /\ [12; 30; 0] !! 1%nat = Some 30
   /\ Forall (fun v => 0 <= v) [12; 30; 0])
  /\ exists x y w h,
       bar_rect (IZR 600) (IZR 300) 3 [12; 30; 0] 1 30
       = {| rect_x := Finite x; rect_y := Finite y;
            rect_w := Finite w; rect_h := Finite h |}
       /\ 50 <= x
       /\ - 20 <= w <= IZR 600 - 100
       /\ 0 <= h <= IZR 300 - 80
       /\ 40 <= y <= IZR 300 - 40
       /\ (Forall (fun v => v = 0) [12; 30; 0] -> h = 0).
Proof.
  assert (Forall (fun v => 0 <= v) [12; 30; 0]) as Hpos
    by (repeat constructor; lra).
  split; [split; [lia|]; split; [lia|]; split; [lia|];
          split; [reflexivity | exact Hpos]|].
  apply (bars_fit_plot_area 600 300 3 [12; 30; 0] 1 30);
    [lia | lia | lia | reflexivity | exact Hpos].
Defined.

End BarChart.

(** ** The recommendations table *)

Section Recommendations.

#[local] Open Scope R_scope.

Lemma round_positive (t : R) :
  0 <= t -> 0 < IZR (Int_part (t + 1 / 2)) <-> 1 / 2 <= t.
Proof.
  intros Ht. destruct (base_Int_part (t + 1 / 2)) as [Hle Hgt]. split.
  - intros Hpos. apply lt_IZR in Hpos.
    assert (1 <= Int_part (t + 1 / 2))%Z as Hone by lia.
    apply IZR_le in Hone. lra.
  - intros Hhalf. lra.
Qed.

Lemma round_nonneg (t : R) : 0 <= t -> 0 <= IZR (Int_part (t + 1 / 2)).
Proof.
  intros Ht. destruct (base_Int_part (t + 1 / 2)) as [Hle Hgt].
  assert (-1 < IZR (Int_part (t + 1 / 2))) as Hm by lra.
  apply lt_IZR in Hm. apply IZR_le. lia.
Qed.

Lemma gt0_toFixed1 (r : R) : gt0 (toFixed1 (Finite r)) = true <-> 1 / 20 <= r.
Proof.
  unfold toFixed1. destruct (decide (_ <= Rabs r)) as [Hbig|Hsmall].
  - cbn. rewrite bool_decide_eq_true. revert Hbig.
    unfold Rabs. destruct (Rcase_abs r); lra.
  - destruct (decide (r < 0)) as [Hneg|Hpos]; cbn; rewrite bool_decide_eq_true.
    + pose proof (round_nonneg (10 * - r) ltac:(lra)). lra.
    + pose proof (round_positive (10 * r) ltac:(lra)) as Hround.
      split; intros H; [|assert (1 / 2 <= 10 * r) as H' by lra;
                          apply Hround in H'; lra].
      assert (0 < IZR (Int_part (10 * r + 1 / 2))) as H' by lra.
      apply Hround in H'. lra.
Qed.

Lemma lt0_toFixed1 (r : R) : lt0 (toFixed1 (Finite r)) = true <-> r <= - (1 / 20).
Proof.
  unfold toFixed1. destruct (decide (_ <= Rabs r)) as [Hbig|Hsmall].
  - cbn. rewrite bool_decide_eq_true. revert Hbig.
    unfold Rabs. destruct (Rcase_abs r); lra.
  - destruct (decide (r < 0)) as [Hneg|Hpos]; cbn; rewrite bool_decide_eq_true.
    + pose proof (round_positive (10 * - r) ltac:(lra)) as Hround.
      split; intros H; [|assert (1 / 2 <= 10 * - r) as H' by lra;
                          apply Hround in H'; lra].
      assert (0 < IZR (Int_part (10 * - r + 1 / 2))) as H' by lra.
      apply Hround in H'. lra.
    + pose proof (round_nonneg (10 * r) ltac:(lra)). lra.
Qed.

Lemma row_change_value (current optimized : R) :
  current <> 0 ->
  row_change current optimized
  = toFixed1 (Finite ((optimized + - current) / current * 100)).
Proof.
  intros Hc. unfold row_change. cbn [sub add neg div mul].
  by rewrite decide_False.
Qed.

(** X28: for a positive current spend, a row of the recommendations
    table is classed positive exactly when the optimized spend exceeds
    the current one by at least 0.05 percent of it, negative exactly
    when it falls short by at least that much, and neutral in between:
    changes that round to 0.0 percent count as no change. *)
Theorem change_class_thresholds (current optimized : R) :
  0 < current ->
  (changeClass (row_change current optimized) = "positive"
   <-> current / 2000 <= optimized - current)
  /\ (changeClass (row_change current optimized) = "negative"
      <-> optimized - current <= - (current / 2000))
  /\ (changeClass (row_change current optimized) = "neutral"
      <-> - (current / 2000) < optimized - current < current / 2000).
Proof.
  intros Hc. rewrite row_change_value by lra.
  set (r := (optimized + - current) / current * 100).
  assert (optimized - current = r * current / 100) as Hr
    by (unfold r; field; lra).
  assert (1 / 20 <= r <-> current / 2000 <= optimized - current) as Hp.
  { rewrite Hr. split; intros H; nra. }
  assert (r <= - (1 / 20) <-> optimized - current <= - (current / 2000)) as Hn.
  { rewrite Hr. split; intros H; nra. }
  pose proof (gt0_toFixed1 r) as Hgt. pose proof (lt0_toFixed1 r) as Hlt.
  unfold changeClass.
  destruct (Rle_dec (1 / 20) r) as [HP|HnP];
    [|destruct (Rle_dec r (- (1 / 20))) as [HN|HnN]].
  - rewrite (proj2 Hgt HP).
    split; [|split]; (split; [intros H; (done || tauto)|intros H]);
      [done | exfalso; lra | exfalso; lra].
  - assert (gt0 (toFixed1 (Finite r)) = false) as ->.
    { destruct (gt0 (toFixed1 (Finite r))); [|done]. exfalso. tauto. }
    rewrite (proj2 Hlt HN).
    split; [|split]; (split; [intros H; (done || tauto)|intros H]);
      [exfalso; lra | done | exfalso; lra].
  - assert (gt0 (toFixed1 (Finite r)) = false) as ->.
    { destruct (gt0 (toFixed1 (Finite r))); [|done]. exfalso. tauto. }
    assert (lt0 (toFixed1 (Finite r)) = false) as ->.
    { destruct (lt0 (toFixed1 (Finite r))); [|done]. exfalso. tauto. }
    split; [|split]; (split; [intros H|intros H]); try done;
      try (exfalso; tauto).
    split; [apply Rnot_le_lt; tauto | apply Rnot_le_lt; tauto].
Qed.

Lemma change_class_thresholds_witness :
  0 < 100000
  /\ (changeClass (row_change 100000 100040) = "positive"
      <-> 100000 / 2000 <= 100040 - 100000)
  /\ (changeClass (row_change 100000 100040) = "negative"
      <-> 100040 - 100000 <= - (100000 / 2000))
  /\ (changeClass (row_change 100000 100040) = "neutral"
      <-> - (100000 / 2000) < 100040 - 100000 < 100000 / 2000).
Proof.
  split; [lra|]. apply (change_class_thresholds 100000 100040). lra.
Defined.


End Recommendations.
